(** * Turkish-LLaVA notebooks: a shallow embedding of the notebook code

    The repository consists of two notebooks,
    [inference_turkish_llava_4bit.ipynb] and
    [fine_tuning_turkish_llava_with_qlora.ipynb].  The functions they define
    ([download_image], [preprocess_prompt], [inference],
    [prepare_dataset_path], [preprocess], [patched_fn]) and the cells that
    sequence library calls are embedded below; calls into third-party
    libraries are section variables. *)

From Stdlib Require Import ZArith Ascii String List Lia.
From stdpp Require Import base option list gmap strings pretty.

Local Open Scope Z_scope.
Set Warnings "-register-all".

(** ** Python runtime: strings, exceptions, and an exception/state monad *)

Module Py.

(** A Python [str] is modelled by its UTF-8 bytes.  Matching the ASCII
    token ["<image>"] on bytes agrees with matching it on code points. *)
Definition nl : string := String (ascii_of_nat 10) "".

(** [pat in s] for a non-empty [pat]. *)
Fixpoint contains (pat s : string) : bool :=
  String.prefix pat s ||
  match s with
  | EmptyString => false
  | String _ s' => contains pat s'
  end.

(** The number of positions of [s] at which [pat] starts. *)
Fixpoint occurrences (pat s : string) : nat :=
  ((if String.prefix pat s then 1 else 0) +
   match s with
   | EmptyString => 0
   | String _ s' => occurrences pat s'
   end)%nat.

(** The proper suffixes of a string, longest first, the empty one last. *)
Fixpoint suffixes (s : string) : list string :=
  match s with
  | EmptyString => []
  | String _ s' => s' :: suffixes s'
  end.

(** Some non-empty proper suffix of [pat] starts [t]: an occurrence of
    [pat] could begin before [t] and end inside it. *)
Definition straddles (pat t : string) : bool :=
  existsb (fun p2 => negb (bool_decide (p2 = "")) && String.prefix p2 t)
          (suffixes pat).

(** [str.lower()] on the ASCII range.  Only the comparisons
    [s.lower() == "human"] and [s.lower() == "gpt"] are made on its result,
    and no non-ASCII character lower-cases to one of the letters of
    ["human"] or ["gpt"], so leaving the bytes above 127 alone decides
    these comparisons as Python does. *)
Definition lower_ascii (c : ascii) : ascii :=
  let n := nat_of_ascii c in
  if (65 <=? n)%nat && (n <=? 90)%nat then ascii_of_nat (n + 32) else c.

Fixpoint lower (s : string) : string :=
  match s with
  | EmptyString => EmptyString
  | String c s' => String (lower_ascii c) (lower s')
  end.

Fixpoint concat_str (l : list string) : string :=
  match l with
  | [] => ""
  | s :: l' => s +:+ concat_str l'
  end.

(** Exceptions.  [LibraryError cls] stands for any exception raised inside
    a delegated library call (a connection error, an out-of-memory error,
    an image that cannot be identified or encoded, ...). *)
Inductive exn : Type :=
| IndexError
| KeyError (key : string)
| FileExistsError (path : list string)
| FileNotFoundError (path : list string)
| NotADirectoryError (path : list string)
| SystemError
| LibraryError (cls : string).

Inductive result (A : Type) : Type :=
| Ok (a : A)
| Raise (e : exn).
Arguments Ok {A} a.
Arguments Raise {A} e.

(** A computation over a mutable state [St] that returns or raises; the
    state reached is kept in both cases, as effects performed before an
    exception are not undone. *)
Definition M (St A : Type) : Type := St -> result A * St.

Definition ret {St A} (a : A) : M St A := fun s => (Ok a, s).
Definition raise {St A} (e : exn) : M St A := fun s => (Raise e, s).
Definition bind {St A B} (m : M St A) (k : A -> M St B) : M St B :=
  fun s =>
    match m s with
    | (Ok a, s') => k a s'
    | (Raise e, s') => (Raise e, s')
    end.

Declare Scope py_scope.
Delimit Scope py_scope with py.
Notation "x <- m ;; k" := (bind m (fun x => k))
  (at level 100, m at next level, right associativity) : py_scope.
Notation "m ;; k" := (bind m (fun _ => k))
  (at level 100, right associativity) : py_scope.

(** [for x in xs: body] with the loop-carried local variables in [acc]. *)
Fixpoint for_in {St A B} (xs : list A) (acc : B) (body : B -> A -> M St B)
  : M St B :=
  match xs with
  | [] => ret acc
  | x :: xs' => (acc' <- body acc x ;; for_in xs' acc' body)%py
  end.

(** [range(n)] *)
Definition range (n : Z) : list Z := Z.of_nat <$> seq 0 (Z.to_nat n).

(** [l[i]] on a list: negative indices count from the end, and an index
    outside the list raises [IndexError]. *)
Definition getitem {St A} (l : list A) (i : Z) : M St A :=
  let j := if i <? 0 then i + Z.of_nat (length l) else i in
  if j <? 0 then raise IndexError
  else match l !! Z.to_nat j with
       | Some a => ret a
       | None => raise IndexError
       end.

(** Python values that the notebooks put into dictionaries and JSON
    records.  A dictionary literal keeps its keys in insertion order. *)
Inductive pyval : Type :=
| PyBool (b : bool)
| PyInt (z : Z)
| PyStr (s : string)
| PyList (l : list pyval)
| PyDict (fields : list (string * pyval)).

End Py.

(** ** The inference notebook *)

Module Inference.
Import Py.

(** [preprocess_prompt(system_prompt, user_prompt)]: three adjacent string
    literals, the last two of them f-strings. *)
Definition preprocess_prompt (system_prompt user_prompt : string) : string :=
  ("<|begin_of_text|><|start_header_id|>system<|end_header_id|>" +:+ nl +:+ nl)
  +:+ (system_prompt +:+ "<|eot_id|><|start_header_id|>user<|end_header_id|>" +:+ nl +:+ nl)
  +:+ ("<image>" +:+ nl +:+ user_prompt
       +:+ "<|eot_id|><|start_header_id|>assistant<|end_header_id|>" +:+ nl +:+ nl).

(** *** Calls delegated to [requests], [PIL], [llava] and [transformers]

    The world [W] stands for everything outside the notebook: the network,
    the accelerator and its memory.  Every delegated call may change it and
    may raise. *)
Section Delegated.
Context {W Image Tensor Model Tokenizer ImageProcessor Config Device : Type}.

(** What [requests.get] returns: the notebook reads [content] only. *)
Record Response : Type := {
  status_code : Z;
  content : list Byte.byte
}.

Variable requests_get : string -> M W Response.
Variable Image_open : list Byte.byte -> M W Image.

(** [BytesIO(content)]: an in-memory stream over the same bytes. *)
Definition BytesIO (b : list Byte.byte) : list Byte.byte := b.

Definition download_image (url : string) : M W Image :=
  (r <- requests_get url ;;
   Image_open (BytesIO (content r)))%py.

Variable tokenizer_image_token : string -> Tokenizer -> string -> M W Tensor.
Variable unsqueeze : Tensor -> Z -> M W Tensor.
Variable cuda : Tensor -> M W Tensor.
Variable process_images : list Image -> ImageProcessor -> Config -> M W Tensor.
Variable to : Tensor -> Device -> string -> M W Tensor.
Variable generate :
  Model -> Tensor -> Tensor -> list (Z * Z) -> gmap string pyval -> M W Tensor.
Variable batch_decode : Tokenizer -> Tensor -> bool -> M W (list string).
Variable config : Model -> Config.
Variable device : Model -> Device.
Variable size : Image -> Z * Z.

(** [inference(model, tokenizer, image_processor, image, prompt,
    generation_config)]; [**generation_config] hands the mapping to
    [model.generate] as its keyword arguments. *)
Definition inference (model : Model) (tokenizer : Tokenizer)
    (image_processor : ImageProcessor) (image : Image) (prompt : string)
    (generation_config : gmap string pyval) : M W (list string) :=
  (t0 <- tokenizer_image_token prompt tokenizer "pt" ;;
   t1 <- unsqueeze t0 0 ;;
   input_ids <- cuda t1 ;;
   p0 <- process_images [image] image_processor (config model) ;;
   image_tensor <- to p0 (device model) "float16" ;;
   output_ids <- generate model input_ids image_tensor [size image]
                          generation_config ;;
   outputs <- batch_decode tokenizer output_ids true ;;
   ret outputs)%py.

(** The cell that runs inference: the configuration it defines is the one
    it passes on. *)
Definition generation_config : gmap string pyval :=
  <["max_new_tokens" := PyInt 256]> (<["do_sample" := PyBool false]> ∅).

Definition run_inference (model : Model) (tokenizer : Tokenizer)
    (image_processor : ImageProcessor) (image : Image) (prompt : string)
  : M W (list string) :=
  inference model tokenizer image_processor image prompt generation_config.

End Delegated.

(** The keys by which [generate] is told how to sample. *)
Definition sampling_keys : list string :=
  ["temperature"; "top_p"; "top_k"].

(** Decode flags are consistent when a configuration that turns sampling
    off names no sampling parameter. *)
Definition sampling_consistent (cfg : gmap string pyval) : bool :=
  match cfg !! "do_sample" with
  | Some (PyBool false) =>
      forallb (fun k => bool_decide (cfg !! k = None)) sampling_keys
  | _ => true
  end.

End Inference.

(** ** The fine-tuning notebook *)

Module FineTuning.
Import Py.

(** *** Configuration set by the first code cell *)

Definition model_path : string := "ytu-ce-cosmos/Turkish-LLaVA-v0.1".
Definition dataset_dir : string := "llava_dataset".
Definition output_dir : string := "output".
Definition system_prompt : string := "Sen yardımsever bir asistansın.".

(** [conv.Conversation]: the fields the notebook sets. *)
Record Conversation : Type := {
  system : string;
  roles : string * string;
  version : string;
  messages : list (string * string);
  offset : Z;
  sep : string
}.

(** [conv.default_conversation], as the notebook rebinds it. *)
Definition default_conversation : Conversation := {|
  system := "<|begin_of_text|><|start_header_id|>system<|end_header_id|>"
            +:+ nl +:+ nl +:+ system_prompt;
  roles := ("<|start_header_id|>user<|end_header_id|>" +:+ nl +:+ nl,
            "<|start_header_id|>assistant<|end_header_id|>" +:+ nl +:+ nl);
  version := "llama3";
  messages := [];
  offset := 0;
  sep := "<|eot_id|>"
|}.

(** *** The file system seen through [pathlib]

    A [Path] is the list of its components, the last one first, so that
    [parent] is the tail and [Path / name] is a cons.  Paths are written
    out from the root: the empty list is the root directory, and a
    relative path has the components of the working directory after its
    own.  [pathlib] drops empty and [.] components when it reads a path,
    but keeps a [..] component as it is and leaves it to the operating
    system, which takes it as the parent of the directory reached so
    far.  The file system holds directories and regular files,
    each under the path of plain names that leads to it; it has no
    symbolic links. *)
Inductive kind : Type := File | Dir.

Abbreviation Path := (list string).
Abbreviation FS := (gmap (list string) kind).

#[global] Instance kind_eq_dec : EqDecision kind.
Proof. solve_decision. Defined.

Inductive stat_result : Type := StDir | StFile | ENOENT | ENOTDIR.

#[global] Instance stat_result_eq_dec : EqDecision stat_result.
Proof. solve_decision. Defined.

(** Where the walk down a path ends: in a directory, named by the plain
    names that lead to it, at a regular file, at a missing entry, or at a
    component below something that is no directory. *)
Inductive walk : Type :=
| WDir (q : Path)
| WFile
| WMissing
| WNotDir.

(** The walk of the operating system, from the root; the parent of the
    root is the root. *)
Fixpoint resolve (fs : FS) (p : Path) : walk :=
  match p with
  | [] => WDir []
  | name :: parent =>
      match resolve fs parent with
      | WDir q =>
          if bool_decide (name = "..") then WDir (tail q)
          else match fs !! (name :: q) with
               | Some Dir => WDir (name :: q)
               | Some File => WFile
               | None => WMissing
               end
      | WFile => WNotDir
      | WMissing => WMissing
      | WNotDir => WNotDir
      end
  end.

(** [os.stat] *)
Definition stat (fs : FS) (p : Path) : stat_result :=
  match resolve fs p with
  | WDir _ => StDir
  | WFile => StFile
  | WMissing => ENOENT
  | WNotDir => ENOTDIR
  end.

(** [Path.exists()]: [ENOENT] and [ENOTDIR] are answered by [False]. *)
Definition exists_in (fs : FS) (p : Path) : bool :=
  match stat fs p with
  | StDir | StFile => true
  | ENOENT | ENOTDIR => false
  end.

Definition Path_exists (p : Path) : M FS bool :=
  fun fs => (Ok (exists_in fs p), fs).

Definition Path_is_dir (p : Path) : M FS bool :=
  fun fs => (Ok (bool_decide (stat fs p = StDir)), fs).

(** [os.mkdir(p)]: the parent of a directory is there already. *)
Definition os_mkdir (p : Path) : M FS unit :=
  fun fs =>
    match p with
    | [] => (Raise (FileExistsError p), fs)
    | name :: parent =>
        match resolve fs parent with
        | WDir q =>
            if bool_decide (name = "..") then (Raise (FileExistsError p), fs)
            else match fs !! (name :: q) with
                 | Some _ => (Raise (FileExistsError p), fs)
                 | None => (Ok tt, <[name :: q := Dir]> fs)
                 end
        | WMissing => (Raise (FileNotFoundError p), fs)
        | WFile | WNotDir => (Raise (NotADirectoryError p), fs)
        end
    end.

(** The [except OSError] branch of [Path.mkdir]: the error is swallowed
    only under [exist_ok] and when the path is a directory. *)
Definition mkdir_oserror (p : Path) (exist_ok : bool) (e : exn) : M FS unit :=
  if negb exist_ok then raise e
  else (d <- Path_is_dir p ;; if negb d then raise e else ret tt)%py.

(** [Path.mkdir(parents=False, exist_ok=exist_ok)] *)
Definition mkdir_flat (p : Path) (exist_ok : bool) : M FS unit :=
  fun fs =>
    match os_mkdir p fs with
    | (Ok _, fs') => (Ok tt, fs')
    | (Raise (FileNotFoundError q), fs') => (Raise (FileNotFoundError q), fs')
    | (Raise e, fs') => mkdir_oserror p exist_ok e fs'
    end.

(** [Path.mkdir(parents=parents, exist_ok=exist_ok)]: on
    [FileNotFoundError] with [parents], the parent is made with
    [parents=True, exist_ok=True] and the directory itself is retried
    without [parents]. *)
Fixpoint Path_mkdir (p : Path) (parents exist_ok : bool) : M FS unit :=
  fun fs =>
    match os_mkdir p fs with
    | (Ok _, fs') => (Ok tt, fs')
    | (Raise (FileNotFoundError q), fs') =>
        match p with
        | [] => (Raise (FileNotFoundError q), fs')
        | _ :: parent =>
            if negb parents then (Raise (FileNotFoundError q), fs')
            else (Path_mkdir parent true true ;; mkdir_flat p exist_ok)%py fs'
        end
    | (Raise e, fs') => mkdir_oserror p exist_ok e fs'
    end.

(** [prepare_dataset_path(dataset_dir)], after [Path(dataset_dir)].  The
    two methods of [pathlib] that it calls are parameters: [path_exists]
    for [Path.exists] and [path_mkdir] for [Path.mkdir(parents, exist_ok)],
    over whatever they act on. *)
Section Pathlib.
Context {W : Type}.
Variable path_exists : Path -> M W bool.
Variable path_mkdir : Path -> bool -> bool -> M W unit.

Definition prepare_dataset_path (dataset_dir : Path) : M W unit :=
  (e <- path_exists dataset_dir ;;
   (if negb e then path_mkdir dataset_dir true false else ret tt) ;;
   e' <- path_exists ("images" :: dataset_dir) ;;
   (if negb e' then path_mkdir ("images" :: dataset_dir) true false
    else ret tt))%py.

End Pathlib.


(** *** The dataset converter *)

(** A row identifier: an integer or a string column value. *)
Inductive ident : Type :=
| IdInt (z : Z)
| IdStr (s : string).

(** [f"{x}"] *)
Definition format_ident (x : ident) : string :=
  match x with
  | IdInt z => pretty z
  | IdStr s => s
  end.

Definition ident_val (x : ident) : pyval :=
  match x with
  | IdInt z => PyInt z
  | IdStr s => PyStr s
  end.

Section Dataset.
Context {Image : Type}.

(** The writes that went through so far, oldest first: a later write to
    a path replaces what an earlier one left there. *)
Abbreviation Disk := (list (string * Image)).

(** What the image library does when it cannot encode an image as JPEG
    and write it to a path: the exception it raises and the disk it
    leaves, on which the file at the path may have been opened and
    emptied, or created and removed again.  [None] when the save goes
    through. *)
Variable save_error : Disk -> Image -> string -> option (exn * Disk).

(** [img.save(path, format="JPEG")]: the file is written, or the
    library's exception is raised in the state the library left. *)
Definition Image_save (img : Image) (path format : string) : M Disk unit :=
  fun d =>
    match save_error d img path with
    | Some (e, d') => (Raise e, d')
    | None => (Ok tt, d ++ [(path, img)])
    end.

(** The batch handed over by [ds.map(..., batched=True)]: one list per
    column, and the [json] column that [preprocess] adds. *)
Record Batch : Type := {
  imgid : list ident;
  image : list Image;
  detailed_caption : list string;
  json : list pyval
}.

(** The body of the loop of [preprocess], for index [i]. *)
Definition convert_row (batch : Batch) (user_prompt : string)
    (json : list pyval) (i : Z) : M Disk (list pyval) :=
  (id0 <- getitem (imgid batch) i ;;
   let img := format_ident id0 +:+ ".jpg" in
   im <- getitem (image batch) i ;;
   Image_save im ("llava_dataset/images/" +:+ img) "JPEG" ;;
   id1 <- getitem (imgid batch) i ;;
   caption <- getitem (detailed_caption batch) i ;;
   ret (json ++
        [PyDict
           [("id", ident_val id1);
            ("image", PyStr img);
            ("conversations",
             PyList
               [PyDict [("from", PyStr "human");
                        ("value", PyStr ("<image>" +:+ nl +:+ user_prompt))];
                PyDict [("from", PyStr "gpt");
                        ("value", PyStr caption)]])]]))%py.

(** [preprocess(batch, batch_size, user_prompt)] *)
Definition preprocess (batch : Batch) (batch_size : Z) (user_prompt : string)
  : M Disk Batch :=
  (records <- for_in (range batch_size) [] (convert_row batch user_prompt) ;;
   ret {| imgid := imgid batch;
          image := image batch;
          detailed_caption := detailed_caption batch;
          json := records |})%py.

(** [datasets.Dataset.map(function, batched=True, batch_size=n)]: the
    rows are handed to the function in consecutive slices of [n] rows,
    the last slice holding whatever is left. *)
Fixpoint slices (fuel : nat) (n : nat) (b : Batch) : list Batch :=
  match fuel with
  | O => []
  | S fuel' =>
      match imgid b with
      | [] => []
      | _ =>
          {| imgid := take n (imgid b);
             image := take n (image b);
             detailed_caption := take n (detailed_caption b);
             json := [] |}
          :: slices fuel' n
               {| imgid := drop n (imgid b);
                  image := drop n (image b);
                  detailed_caption := drop n (detailed_caption b);
                  json := [] |}
      end
  end.

Definition ds_map (function : Batch -> M Disk Batch) (batch_size : Z)
    (ds : Batch) : M Disk (list pyval) :=
  for_in (slices (length (imgid ds)) (Z.to_nat batch_size) ds) []
    (fun out b => (b' <- function b ;; ret (out ++ json b'))%py).

(** The cell: [batch_size = 1000], and [preprocess] is mapped over the
    dataset with that batch size. *)
Definition batch_size : Z := 1000.
Definition user_prompt : string := "Görüntüyü detaylı olarak açıkla.".

Definition convert_dataset (ds : Batch) : M Disk (list pyval) :=
  ds_map (fun b => preprocess b batch_size user_prompt) batch_size ds.

(** The record and the file that one row is to yield. *)
Definition record_of (user_prompt : string) (id : ident) (caption : string)
  : pyval :=
  PyDict
    [("id", ident_val id);
     ("image", PyStr (format_ident id +:+ ".jpg"));
     ("conversations",
      PyList
        [PyDict [("from", PyStr "human");
                 ("value", PyStr ("<image>" +:+ nl +:+ user_prompt))];
         PyDict [("from", PyStr "gpt");
                 ("value", PyStr caption)]])].

Definition file_of (id : ident) (img : Image) : string * Image :=
  ("llava_dataset/images/" +:+ format_ident id +:+ ".jpg", img).

End Dataset.

(** *** The patched [_add_speaker_and_signal] *)

(** Turn dictionaries live in a store and a list of turns is a list of
    references into it, so that an assignment to [sentence["value"]] is
    seen by every holder of the list. *)
Abbreviation Heap := (gmap nat (gmap string string)).

Definition dict_get (sentence : nat) (key : string) : M Heap string :=
  fun h =>
    match h !! sentence with
    | None => (Raise SystemError, h)
    | Some d =>
        match d !! key with
        | Some v => (Ok v, h)
        | None => (Raise (KeyError key), h)
        end
    end.

Definition dict_set (sentence : nat) (key value : string) : M Heap unit :=
  fun h =>
    match h !! sentence with
    | None => (Raise SystemError, h)
    | Some d => (Ok tt, <[sentence := <[key := value]> d]> h)
    end.

Definition EOS_TOKEN : string := "<|eot_id|>".

(** The body of the loop of [patched_fn], for one [sentence]. *)
Definition add_speaker (get_conversation : bool) (conversation : string)
    (sentence : nat) : M Heap string :=
  (from_str <- dict_get sentence "from" ;;
   let from_str :=
     if bool_decide (lower from_str = "human")
     then (roles default_conversation).1
     else if bool_decide (lower from_str = "gpt")
          then (roles default_conversation).2
          else "unknown" in
   value <- dict_get sentence "value" ;;
   dict_set sentence "value" (EOS_TOKEN +:+ from_str +:+ value) ;;
   if get_conversation
   then (value' <- dict_get sentence "value" ;; ret (conversation +:+ value'))
   else ret conversation)%py.

(** [patched_fn(header, source, get_conversation=True)] *)
Definition patched_fn (header : string) (source : list nat)
    (get_conversation : bool) : M Heap string :=
  (conversation <- for_in source header (add_speaker get_conversation) ;;
   ret (conversation +:+ EOS_TOKEN))%py.

(** The role header the loop gives a sender, and the value it writes. *)
Definition role_header (from_str : string) : string :=
  if bool_decide (lower from_str = "human")
  then "<|start_header_id|>user<|end_header_id|>" +:+ nl +:+ nl
  else if bool_decide (lower from_str = "gpt")
       then "<|start_header_id|>assistant<|end_header_id|>" +:+ nl +:+ nl
       else "unknown".

Definition signalled (turn : string * string) : string :=
  EOS_TOKEN +:+ role_header turn.1 +:+ turn.2.

(** The reference [l] holds a turn from [turn.1] with text [turn.2]. *)
Definition holds_turn (h : Heap) (l : nat) (turn : string * string) : Prop :=
  exists d, h !! l = Some d /\ d !! "from" = Some turn.1 /\
            d !! "value" = Some turn.2.

(** Between [h] and [h'], the turn behind [l] has had its [value], and
    nothing else, replaced by the signalled text. *)
Definition rewritten (h h' : Heap) (l : nat) (turn : string * string) : Prop :=
  exists d, h !! l = Some d /\ d !! "from" = Some turn.1 /\
            d !! "value" = Some turn.2 /\
            h' !! l = Some (<["value" := signalled turn]> d).

(** The conversation as the sentence of the specification words it: the
    role is chosen by comparing the sender with ["human"] and ["gpt"]
    themselves, and every turn is always included. *)
Definition role_header_as_stated (from_str : string) : string :=
  if bool_decide (from_str = "human")
  then "<|start_header_id|>user<|end_header_id|>" +:+ nl +:+ nl
  else if bool_decide (from_str = "gpt")
       then "<|start_header_id|>assistant<|end_header_id|>" +:+ nl +:+ nl
       else "unknown".

Definition conversation_as_stated (header : string)
    (turns : list (string * string)) : string :=
  header
  +:+ concat_str
        ((fun t => "<|eot_id|>" +:+ role_header_as_stated t.1 +:+ t.2) <$> turns)
  +:+ "<|eot_id|>".

(** The text of a turn from [from_str] after [n] passes of the loop. *)
Definition signalled_times (from_str : string) (n : nat) (value : string)
  : string :=
  Nat.iter n (fun v => EOS_TOKEN +:+ role_header from_str +:+ v) value.

(** A turn dictionary after [n] passes of the loop. *)
Definition turn_after (n : nat) (d : gmap string string) : gmap string string :=
  match d !! "from", d !! "value" with
  | Some from_str, Some value => <["value" := signalled_times from_str n value]> d
  | _, _ => d
  end.

(** The store after the loop has gone through [source]: every dictionary
    has been passed as often as the list names it. *)
Definition after_loop (source : list nat) (h : Heap) : Heap :=
  map_imap (fun l d => Some (turn_after (count_occ Nat.eq_dec source l) d)) h.

(** The reference [l] is to a dictionary with the keys [from] and [value]. *)
Definition is_turn (h : Heap) (l : nat) : Prop :=
  exists d, h !! l = Some d /\ is_Some (d !! "from") /\ is_Some (d !! "value").

(** Reading a record back: [record[key]], and the senders and texts of
    [record["conversations"]]. *)
Definition py_field (key : string) (v : pyval) : option pyval :=
  match v with
  | PyDict fields => snd <$> List.find (fun kv => String.eqb kv.1 key) fields
  | _ => None
  end.

Definition turn_of (v : pyval) : option (string * string) :=
  match py_field "from" v, py_field "value" v with
  | Some (PyStr from_str), Some (PyStr value) => Some (from_str, value)
  | _, _ => None
  end.

Definition record_turns (record : pyval) : list (string * string) :=
  match py_field "conversations" record with
  | Some (PyList turns) => omap turn_of turns
  | _ => []
  end.

(** *** Merging, saving and sharing *)

Definition merged_path : string := "merged_output".
Definition repo_id : string := "atasoglu/Turkish-LLaVA-v0.1-ft".
Definition push_to_hub : bool := true.

Section SaveAndShare.
Context {World Model Tokenizer ImageProcessor : Type}.

(** The three objects that are saved. *)
Inductive Artifact : Type :=
| AModel (m : Model)
| ATokenizer (t : Tokenizer)
| AImageProcessor (p : ImageProcessor).

(** The first argument of [PeftModel.from_pretrained]: Python does not
    type it, and the notebook passes the checkpoint name. *)
Inductive BaseArg : Type :=
| BaseName (name : string)
| BaseModel (m : Model).

Variable trainer_train : Model -> Tokenizer -> M World unit.
Variable notebook_login : M World unit.
Variable PeftModel_from_pretrained : BaseArg -> string -> M World Model.
Variable merge_and_unload : Model -> M World Model.
Variable bfloat16 : Model -> M World Model.
(** [obj.save_pretrained(save_directory, repo_id=..., push_to_hub=...)] *)
Variable save_pretrained : Artifact -> string -> string -> bool -> M World unit.

(** "Load & merge model with LoRA adapter and convert to bfloat16" *)
Definition merge_cell : M World Model :=
  (model <- PeftModel_from_pretrained (BaseName model_path) output_dir ;;
   merged <- merge_and_unload model ;;
   bfloat16 merged)%py.

(** "Save (and push to hub) the model", the tokenizer and the image
    processor. *)
Definition save_cell (model : Model) (tokenizer : Tokenizer)
    (image_processor : ImageProcessor) (push_to_hub : bool) : M World unit :=
  (save_pretrained (AModel model) merged_path repo_id push_to_hub ;;
   save_pretrained (ATokenizer tokenizer) merged_path repo_id push_to_hub ;;
   save_pretrained (AImageProcessor image_processor) merged_path repo_id
                   push_to_hub)%py.

(** The cells from the training loop to the end of the notebook, with
    the value of the [push_to_hub] variable as a parameter. *)
Definition train_merge_save (model : Model) (tokenizer : Tokenizer)
    (image_processor : ImageProcessor) (push_to_hub : bool) : M World unit :=
  (trainer_train model tokenizer ;;
   notebook_login ;;
   model' <- merge_cell ;;
   save_cell model' tokenizer image_processor push_to_hub)%py.

End SaveAndShare.

End FineTuning.

(** ** Paths of plain names

    On a path without a [..] component the walk is a chain of lookups
    under the path itself.  The definitions of this module are that
    chain; [PathFacts] shows that on such paths they are the file
    system's own. *)

Module PlainNames.
Import Py FineTuning.

Fixpoint stat (fs : FS) (p : Path) : stat_result :=
  match p with
  | [] => StDir
  | _ :: parent =>
      match stat fs parent with
      | StDir =>
          match fs !! p with
          | Some Dir => StDir
          | Some File => StFile
          | None => ENOENT
          end
      | StFile => ENOTDIR
      | ENOENT => ENOENT
      | ENOTDIR => ENOTDIR
      end
  end.

Definition exists_in (fs : FS) (p : Path) : bool :=
  match stat fs p with
  | StDir | StFile => true
  | ENOENT | ENOTDIR => false
  end.

Definition Path_exists (p : Path) : M FS bool :=
  fun fs => (Ok (exists_in fs p), fs).

Definition Path_is_dir (p : Path) : M FS bool :=
  fun fs => (Ok (bool_decide (stat fs p = StDir)), fs).

Definition os_mkdir (p : Path) : M FS unit :=
  fun fs =>
    match p with
    | [] => (Raise (FileExistsError p), fs)
    | _ :: parent =>
        match stat fs parent with
        | StDir =>
            match fs !! p with
            | Some _ => (Raise (FileExistsError p), fs)
            | None => (Ok tt, <[p := Dir]> fs)
            end
        | ENOENT => (Raise (FileNotFoundError p), fs)
        | StFile | ENOTDIR => (Raise (NotADirectoryError p), fs)
        end
    end.

Definition mkdir_oserror (p : Path) (exist_ok : bool) (e : exn) : M FS unit :=
  if negb exist_ok then raise e
  else (d <- Path_is_dir p ;; if negb d then raise e else ret tt)%py.

Definition mkdir_flat (p : Path) (exist_ok : bool) : M FS unit :=
  fun fs =>
    match os_mkdir p fs with
    | (Ok _, fs') => (Ok tt, fs')
    | (Raise (FileNotFoundError q), fs') => (Raise (FileNotFoundError q), fs')
    | (Raise e, fs') => mkdir_oserror p exist_ok e fs'
    end.

Fixpoint Path_mkdir (p : Path) (parents exist_ok : bool) : M FS unit :=
  fun fs =>
    match os_mkdir p fs with
    | (Ok _, fs') => (Ok tt, fs')
    | (Raise (FileNotFoundError q), fs') =>
        match p with
        | [] => (Raise (FileNotFoundError q), fs')
        | _ :: parent =>
            if negb parents then (Raise (FileNotFoundError q), fs')
            else (Path_mkdir parent true true ;; mkdir_flat p exist_ok)%py fs'
        end
    | (Raise e, fs') => mkdir_oserror p exist_ok e fs'
    end.



End PlainNames.

(** ** Stand-ins for the delegated libraries, and sample data

    The theorems below hold for every behaviour of the delegated calls.  The
    stand-ins here are one such behaviour each, on which the theorems are
    run: the world is the log of the calls made so far. *)

Module Examples.
Import Py Inference FineTuning.

Definition not_found_body : list Byte.byte :=
  String.list_byte_of_string "<html>404 Not Found</html>".

Definition get_404 (url : string) : M (list string) Response :=
  fun log => (Ok {| status_code := 404; content := not_found_body |},
              log ++ ["requests.get " +:+ url]).

Definition get_200 (url : string) : M (list string) Response :=
  fun log => (Ok {| status_code := 200; content := not_found_body |},
              log ++ ["requests.get " +:+ url]).

Definition get_refused (url : string) : M (list string) Response :=
  fun log => (Raise (LibraryError "ConnectionError"), log).

(** A decoder that knows no image format. *)
Definition open_unidentified (b : list Byte.byte) : M (list string) string :=
  fun log => (Raise (LibraryError "UnidentifiedImageError"), log ++ ["Image.open"]).

(** Tensors, models and the like are named by strings. *)
Definition call1 (name : string) : M (list string) string :=
  fun log => (Ok name, log ++ [name]).

Definition out_of_memory (name : string) : M (list string) string :=
  fun log => (Raise (LibraryError "OutOfMemoryError"), log ++ [name]).

Definition decode_one (name : string) : M (list string) (list string) :=
  fun log => (Ok ["Bir köpek çimlerde koşuyor."], log ++ [name]).

(** The last slice of a dataset, two rows long. *)
Definition last_slice : @Batch string :=
  {| imgid := [IdInt 8000; IdInt 8001];
     image := ["pixels of 8000"; "pixels of 8001"];
     detailed_caption := ["Bir köpek koşuyor."; "İki çocuk oynuyor."];
     json := [] |}.

(** An image library that cannot encode any image. *)
Definition cannot_encode (d : list (string * string)) (img path : string)
  : option (exn * list (string * string)) :=
  Some (LibraryError "OSError", d).

(** Two turns as they come out of [preprocess], behind references 0 and 1. *)
Definition two_turns : Heap :=
  <[0%nat := <["from" := "human"]> (<["value" := "<image>" +:+ nl +:+ "Ne var?"]> ∅)]>
    (<[1%nat := <["from" := "gpt"]> (<["value" := "Bir köpek."]> ∅)]> ∅).

Definition two_turns_content : list (string * string) :=
  [("human", "<image>" +:+ nl +:+ "Ne var?"); ("gpt", "Bir köpek.")].

(** A model hub and a disk that record what is saved and pushed. *)
Record Shelf : Type := {
  on_disk : list (string * @Artifact string string string);
  on_hub : list (string * @Artifact string string string)
}.

Definition shelf_call (name : string) : M Shelf string :=
  fun w => (Ok name, w).

Definition shelf_unit : M Shelf unit := fun w => (Ok tt, w).

Definition shelf_save (a : @Artifact string string string)
    (dir repo : string) (push : bool) : M Shelf unit :=
  fun w =>
    (Ok tt,
     {| on_disk := on_disk w ++ [(dir, a)];
        on_hub := if push then on_hub w ++ [(repo, a)] else on_hub w |}).

(** A stand-in for [PeftModel.from_pretrained] that, like the library,
    needs the base model itself: handed a name, it fails on the first
    attribute of a model that it asks for. *)
Definition shelf_from_pretrained (base : @BaseArg string) (adapter : string)
  : M Shelf string :=
  match base with
  | BaseName name => fun w => (Raise (LibraryError "AttributeError"), w)
  | BaseModel m => shelf_call ("peft(" +:+ m +:+ ", " +:+ adapter +:+ ")")
  end.

(** An image library that cannot encode the second image of [last_slice]:
    it has opened the file by then and leaves it empty. *)
Definition fails_on_second (d : list (string * string)) (img path : string)
  : option (exn * list (string * string)) :=
  if bool_decide (img = "pixels of 8001")
  then Some (LibraryError "OSError", d ++ [(path, "")])
  else None.

(** An image library that writes every image. *)
Definition writes_all (d : list (string * string)) (img path : string)
  : option (exn * list (string * string)) := None.

(** A dataset of [n] rows, numbered from [first]. *)
Definition rows_from (first : Z) (n : nat) : @Batch string :=
  {| imgid := (fun i => IdInt (first + Z.of_nat i)) <$> seq 0 n;
     image := replicate n "pixels";
     detailed_caption := replicate n "Bir köpek koşuyor.";
     json := [] |}.

(** The two turns of [two_turns] and a third dictionary without a text. *)
Definition three_turns : Heap :=
  <[2%nat := <["from" := "gpt"]> ∅]> two_turns.

End Examples.

(** * Theorems *)

Module StrFacts.
Import Py.

Lemma app_cons c (a b : string) : String c a +:+ b = String c (a +:+ b).
Proof. reflexivity. Qed.

Lemma app_assoc (a b c : string) : (a +:+ b) +:+ c = a +:+ (b +:+ c).
Proof.
  induction a as [|x a IH]; [reflexivity|].
  rewrite !app_cons, IH. reflexivity.
Qed.

Lemma app_nil_r (a : string) : a +:+ "" = a.
Proof.
  induction a as [|x a IH]; [reflexivity|].
  rewrite app_cons, IH. reflexivity.
Qed.

Lemma length_app (a b : string) :
  String.length (a +:+ b) = (String.length a + String.length b)%nat.
Proof.
  induction a as [|x a IH]; [reflexivity|].
  rewrite app_cons. cbn [String.length]. rewrite IH. reflexivity.
Qed.

Lemma prefix_refl (s : string) : String.prefix s s = true.
Proof.
  induction s as [|c s IH]; cbn; [reflexivity|].
  destruct (ascii_dec c c); [exact IH | congruence].
Qed.

(** A prefix test on [s +:+ t] succeeds either inside [s] or by running
    over the end of [s] into [t]. *)
Lemma prefix_app_inv (p s t : string) :
  String.prefix p (s +:+ t) = true ->
  String.prefix p s = true \/
  exists p2, p = s +:+ p2 /\ String.prefix p2 t = true.
Proof.
  revert p. induction s as [|c s IH]; intros p H.
  - right. exists p. split; [reflexivity | exact H].
  - destruct p as [|a p]; [left; reflexivity|].
    rewrite app_cons in H. cbn [String.prefix] in H |- *.
    destruct (ascii_dec a c) as [->|]; [|discriminate].
    destruct (IH p H) as [Hs | (p2 & -> & Hp2)]; [left; exact Hs|].
    right. exists p2. split; [reflexivity | exact Hp2].
Qed.

Lemma suffixes_split (s p2 pat : string) :
  s <> "" -> pat = s +:+ p2 -> In p2 (suffixes pat).
Proof.
  revert pat. induction s as [|c s IH]; intros pat Hne ->; [congruence|].
  rewrite app_cons. cbn [suffixes]. destruct s as [|d s].
  - left. reflexivity.
  - right. apply IH; [discriminate | reflexivity].
Qed.

Lemma contains_cons_false (pat : string) c (s : string) :
  contains pat (String c s) = false ->
  String.prefix pat (String c s) = false /\ contains pat s = false.
Proof. cbn [contains]. intros H. apply orb_false_iff in H. exact H. Qed.

(** Appending [t] to a string that does not contain [pat] adds no
    occurrence in front of [t], unless one straddles the seam. *)
Lemma occurrences_app_absent (pat s t : string) :
  contains pat s = false ->
  straddles pat t = false ->
  occurrences pat (s +:+ t) = occurrences pat t.
Proof.
  intros Hs Ht. induction s as [|c s IH]; [reflexivity|].
  apply contains_cons_false in Hs as [Hp Hc].
  rewrite app_cons. cbn [occurrences]. rewrite (IH Hc).
  destruct (String.prefix pat (String c (s +:+ t))) eqn:E; [|reflexivity].
  exfalso.
  destruct (prefix_app_inv pat (String c s) t E) as [H | (p2 & Hpat & Hp2)].
  - congruence.
  - destruct (decide (p2 = "")) as [->|Hne].
    + rewrite app_nil_r in Hpat. subst pat.
      rewrite prefix_refl in Hp. discriminate.
    + assert (Hin : In p2 (suffixes pat))
        by (eapply suffixes_split; [|exact Hpat]; discriminate).
      unfold straddles in Ht.
      rewrite <- not_true_iff_false in Ht. apply Ht.
      apply existsb_exists. exists p2. split; [exact Hin|].
      rewrite Hp2, bool_decide_eq_false_2 by exact Hne. reflexivity.
Qed.

Lemma contains_false_occurrences (pat s : string) :
  contains pat s = false -> occurrences pat s = 0%nat.
Proof.
  induction s as [|c s IH]; cbn [contains occurrences].
  - intros H. apply orb_false_iff in H as [-> _]. reflexivity.
  - intros H. apply orb_false_iff in H as [-> H]. now rewrite IH.
Qed.

End StrFacts.

Module InferenceFacts.
Import Py Inference Examples StrFacts.

Lemma substring_skip (a x : string) (n : nat) :
  substring (String.length a) n (a +:+ x) = substring 0 n x.
Proof.
  induction a as [|c a IH]; [reflexivity|].
  rewrite app_cons. cbn [String.length substring]. exact IH.
Qed.

Lemma substring_take (b c : string) :
  substring 0 (String.length b) (b +:+ c) = b.
Proof.
  induction b as [|x b IH].
  - destruct c; reflexivity.
  - rewrite app_cons. cbn [String.length substring]. now rewrite IH.
Qed.

(** The piece [b] of [a +:+ b +:+ c] sits at offset [length a]. *)
Lemma substring_middle (a b c : string) :
  substring (String.length a) (String.length b) (a +:+ b +:+ c) = b.
Proof. rewrite substring_skip. apply substring_take. Qed.

(** C2.  [preprocess_prompt] returns the system header, the system prompt,
    the user header with the image placeholder, the user prompt and the
    assistant header, concatenated in this order; each of the three
    delimiter blocks therefore sits at the offset fixed by the lengths of
    the pieces before it; and when neither prompt contains ["<image>"], the
    result contains it at exactly one position. *)
Theorem preprocess_prompt_exact (system_prompt user_prompt : string) :
  preprocess_prompt system_prompt user_prompt =
    "<|begin_of_text|><|start_header_id|>system<|end_header_id|>" +:+ nl +:+ nl
    +:+ system_prompt
    +:+ "<|eot_id|><|start_header_id|>user<|end_header_id|>" +:+ nl +:+ nl
    +:+ "<image>" +:+ nl
    +:+ user_prompt
    +:+ "<|eot_id|><|start_header_id|>assistant<|end_header_id|>" +:+ nl +:+ nl
  /\ substring 0 61 (preprocess_prompt system_prompt user_prompt) =
       "<|begin_of_text|><|start_header_id|>system<|end_header_id|>" +:+ nl +:+ nl
  /\ substring (61 + String.length system_prompt) 60
       (preprocess_prompt system_prompt user_prompt) =
       "<|eot_id|><|start_header_id|>user<|end_header_id|>" +:+ nl +:+ nl
       +:+ "<image>" +:+ nl
  /\ substring (61 + String.length system_prompt + 60
                + String.length user_prompt) 57
       (preprocess_prompt system_prompt user_prompt) =
       "<|eot_id|><|start_header_id|>assistant<|end_header_id|>" +:+ nl +:+ nl
  /\ (contains "<image>" system_prompt = false ->
      contains "<image>" user_prompt = false ->
      occurrences "<image>" (preprocess_prompt system_prompt user_prompt) = 1%nat).
Proof.
  set (P1 := "<|begin_of_text|><|start_header_id|>system<|end_header_id|>" +:+ nl +:+ nl).
  set (P2 := "<|eot_id|><|start_header_id|>user<|end_header_id|>" +:+ nl +:+ nl
             +:+ "<image>" +:+ nl).
  set (P3 := "<|eot_id|><|start_header_id|>assistant<|end_header_id|>" +:+ nl +:+ nl).
  assert (E : preprocess_prompt system_prompt user_prompt =
              P1 +:+ system_prompt +:+ P2 +:+ user_prompt +:+ P3).
  { unfold preprocess_prompt, P1, P2, P3. rewrite !app_assoc. reflexivity. }
  split; [rewrite E; unfold P1, P2, P3; rewrite !app_assoc; reflexivity|].
  rewrite E. repeat split.
  - change 61%nat with (String.length P1). apply substring_take.
  - change 61%nat with (String.length P1).
    change 60%nat with (String.length P2).
    rewrite <- length_app, <- (app_assoc P1 system_prompt).
    apply substring_middle.
  - change 61%nat with (String.length P1).
    change 60%nat with (String.length P2).
    change 57%nat with (String.length P3).
    rewrite <- !length_app.
    rewrite <- (app_assoc P1 system_prompt), <- (app_assoc _ P2),
      <- (app_assoc _ user_prompt).
    rewrite <- (app_nil_r P3) at 2. rewrite substring_middle. reflexivity.
  - intros Hs Hu.
    (* no occurrence starts inside the system header *)
    transitivity (occurrences "<image>" (system_prompt +:+ P2 +:+ user_prompt +:+ P3));
      [reflexivity|].
    rewrite (occurrences_app_absent _ system_prompt) by (exact Hs || reflexivity).
    (* exactly one starts inside the user header *)
    transitivity (S (occurrences "<image>" (user_prompt +:+ P3))); [reflexivity|].
    rewrite (occurrences_app_absent _ user_prompt) by (exact Hu || reflexivity).
    reflexivity.
Qed.

Lemma preprocess_prompt_exact_witness :
  occurrences "<image>"
    (preprocess_prompt "Sen yardımsever bir asistansın."
                       "Görüntüyü detaylı olarak açıkla.") = 1%nat.
Proof.
  apply (preprocess_prompt_exact "Sen yardımsever bir asistansın."
                                 "Görüntüyü detaylı olarak açıkla.");
    vm_compute; reflexivity.
Defined.

(** *** Fetching the image *)

Section Download.
Context {W Image : Type}.
Variable Image_open : list Byte.byte -> M W Image.

(** C10.  [download_image] never reads the status of the response: once
    the GET request has returned a response, whatever its status code,
    the outcome is that of the image decoder on the body; two responses
    that differ in their status only give the same outcome; and an
    exception that comes out of [download_image] after the fetch has
    returned is the decoder's. *)
Theorem download_image_ignores_status
    (requests_get requests_get' : string -> M W Response)
    (url : string) (w w1 : W) (r r' : Response) :
  requests_get url w = (Ok r, w1) ->
  requests_get' url w = (Ok r', w1) ->
  content r' = content r ->
  download_image requests_get Image_open url w = Image_open (content r) w1 /\
  download_image requests_get' Image_open url w =
    download_image requests_get Image_open url w /\
  (forall (e : exn) (w2 : W),
     download_image requests_get Image_open url w = (Raise e, w2) ->
     Image_open (content r) w1 = (Raise e, w2)).
Proof.
  intros Hget Hget' Hc.
  assert (H : download_image requests_get Image_open url w =
              Image_open (content r) w1)
    by (unfold download_image, bind, BytesIO; now rewrite Hget).
  split; [exact H|]. split.
  - rewrite H. unfold download_image, bind, BytesIO. now rewrite Hget', Hc.
  - intros e w2 He. now rewrite <- H.
Qed.

End Download.

(** *** The generation configuration *)

Section Generation.
Context {W Image Tensor Model Tokenizer ImageProcessor Config Device : Type}.
Variable tokenizer_image_token : string -> Tokenizer -> string -> M W Tensor.
Variable unsqueeze : Tensor -> Z -> M W Tensor.
Variable cuda : Tensor -> M W Tensor.
Variable process_images : list Image -> ImageProcessor -> Config -> M W Tensor.
Variable to : Tensor -> Device -> string -> M W Tensor.
Variable generate :
  Model -> Tensor -> Tensor -> list (Z * Z) -> gmap string pyval -> M W Tensor.
Variable batch_decode : Tokenizer -> Tensor -> bool -> M W (list string).
Variable config : Model -> Config.
Variable device : Model -> Device.
Variable size : Image -> Z * Z.

(** C7.  The generation configuration has exactly the keys [do_sample],
    set to [False], and [max_new_tokens], set to [256]; it has no
    [temperature] (nor [top_p], nor [top_k]), which is consistent with
    sampling being off; and once the inputs are prepared, the run is the
    one call of [generate] with this mapping as keyword arguments,
    followed by the decoding of its result. *)
Theorem generation_config_exact
    (model : Model) (tokenizer : Tokenizer) (image_processor : ImageProcessor)
    (image : Image) (prompt : string)
    (t0 t1 input_ids p0 image_tensor : Tensor) (w w1 w2 w3 w4 w5 : W) :
  tokenizer_image_token prompt tokenizer "pt" w = (Ok t0, w1) ->
  unsqueeze t0 0 w1 = (Ok t1, w2) ->
  cuda t1 w2 = (Ok input_ids, w3) ->
  process_images [image] image_processor (config model) w3 = (Ok p0, w4) ->
  to p0 (device model) "float16" w4 = (Ok image_tensor, w5) ->
  dom generation_config = ({["do_sample"; "max_new_tokens"]} : gset string) /\
  generation_config !! "do_sample" = Some (PyBool false) /\
  generation_config !! "max_new_tokens" = Some (PyInt 256) /\
  generation_config !! "temperature" = None /\
  sampling_consistent generation_config = true /\
  run_inference tokenizer_image_token unsqueeze cuda process_images to generate
      batch_decode config device size
      model tokenizer image_processor image prompt w =
    (output_ids <- generate model input_ids image_tensor [size image]
                            generation_config ;;
     batch_decode tokenizer output_ids true)%py w5.
Proof.
  intros H0 H1 H2 H3 H4.
  split; [|split; [|split; [|split; [|split]]]]; try reflexivity.
  unfold run_inference, inference, bind, ret.
  rewrite H0, H1, H2, H3, H4.
  destruct (generate _ _ _ _ _ w5) as [[out|e] w6]; [|reflexivity].
  destruct (batch_decode _ _ _ w6) as [[outs|e] w7]; reflexivity.
Qed.

End Generation.

End InferenceFacts.

(** ** The dataset directory *)

Module PlainPathFacts.
Import Py FineTuning PlainNames.


















End PlainPathFacts.

(** ** The dataset directory *)

Module PathFacts.
Import Py FineTuning.












End PathFacts.

(** ** The dataset converter *)

Module DatasetFacts.
Import Py FineTuning Examples.

Lemma getitem_of_nat {St A} (l : list A) (i : nat) (s : St) :
  getitem l (Z.of_nat i) s =
  match l !! i with
  | Some a => (Ok a, s)
  | None => (Raise IndexError, s)
  end.
Proof.
  unfold getitem.
  destruct (Z.ltb_spec (Z.of_nat i) 0) as [H|H]; [lia|].
  destruct (Z.ltb_spec (Z.of_nat i) 0) as [H'|H']; [lia|].
  rewrite Nat2Z.id. destruct (l !! i); reflexivity.
Qed.

Lemma for_in_app {St A B} (xs ys : list A) (acc : B) (body : B -> A -> M St B)
    (s : St) :
  for_in (xs ++ ys) acc body s =
  (acc' <- for_in xs acc body ;; for_in ys acc' body)%py s.
Proof.
  revert acc s. induction xs as [|x xs IH]; intros acc s; [reflexivity|].
  cbn [app for_in]. unfold bind.
  destruct (body acc x s) as [[acc1|e] s1]; [|reflexivity].
  rewrite IH. reflexivity.
Qed.

Section Converter.
Context {Image : Type}.
Variable save_error : list (string * Image) -> Image -> string ->
    option (exn * list (string * Image)).
Variable batch : @Batch Image.
Variable user_prompt : string.

Let records : list pyval :=
  zip_with (record_of user_prompt) (imgid batch) (detailed_caption batch).
Let files : list (string * Image) :=
  zip_with file_of (imgid batch) (image batch).

(** One turn of the loop that returns has found the row in all three
    columns, has written its file and has appended its record. *)
Lemma convert_row_ok (acc acc' : list pyval) (i : nat)
    (d d' : list (string * Image)) :
  convert_row save_error batch user_prompt acc (Z.of_nat i) d = (Ok acc', d') ->
  exists id img caption,
    imgid batch !! i = Some id /\ image batch !! i = Some img /\
    detailed_caption batch !! i = Some caption /\
    acc' = acc ++ [record_of user_prompt id caption] /\
    d' = d ++ [file_of id img].
Proof.
  unfold convert_row, bind, Image_save, ret. rewrite getitem_of_nat.
  destruct (imgid batch !! i) as [id|] eqn:Hid; [|discriminate].
  rewrite getitem_of_nat.
  destruct (image batch !! i) as [img|] eqn:Him; [|discriminate].
  destruct (save_error d img _) as [[e d0]|]; [discriminate|].
  rewrite getitem_of_nat, Hid, getitem_of_nat.
  destruct (detailed_caption batch !! i) as [caption|] eqn:Hc; [|discriminate].
  intros [= <- <-]. exists id, img, caption. repeat split.
Qed.

Lemma convert_row_run (acc : list pyval) (i : nat) (d : list (string * Image))
    id img caption :
  imgid batch !! i = Some id -> image batch !! i = Some img ->
  detailed_caption batch !! i = Some caption ->
  save_error d img ("llava_dataset/images/" +:+ format_ident id +:+ ".jpg") = None ->
  convert_row save_error batch user_prompt acc (Z.of_nat i) d =
  (Ok (acc ++ [record_of user_prompt id caption]), d ++ [file_of id img]).
Proof.
  intros Hid Him Hc Hs.
  unfold convert_row, bind, Image_save, ret.
  rewrite getitem_of_nat, Hid, getitem_of_nat, Him, Hs.
  rewrite getitem_of_nat, Hid, getitem_of_nat, Hc.
  reflexivity.
Qed.

Lemma convert_row_past_end (acc : list pyval) (i : nat)
    (d : list (string * Image)) :
  (length (imgid batch) <= i)%nat ->
  convert_row save_error batch user_prompt acc (Z.of_nat i) d =
  (Raise IndexError, d).
Proof.
  intros Hi. unfold convert_row, bind.
  rewrite getitem_of_nat, (lookup_ge_None_2 _ _ Hi). reflexivity.
Qed.

(** The loop over the indices [a, a + k), when it returns. *)
Lemma loop_ok (k : nat) :
  forall (a : nat) (acc acc' : list pyval) (d d' : list (string * Image)),
    for_in (Z.of_nat <$> seq a k) acc
           (convert_row save_error batch user_prompt) d = (Ok acc', d') ->
    acc' = acc ++ take k (drop a records) /\
    d' = d ++ take k (drop a files).
Proof.
  induction k as [|k IH]; intros a acc acc' d d' H.
  - cbn in H. injection H as <- <-. rewrite !take_0, !app_nil_r. done.
  - cbn [seq fmap list_fmap for_in] in H. unfold bind in H.
    destruct (convert_row _ _ _ acc (Z.of_nat a) d) as [[acc1|e] d1] eqn:Hrow;
      [|discriminate].
    apply convert_row_ok in Hrow
      as (id & img & caption & Hid & Him & Hc & -> & ->).
    apply IH in H as [-> ->].
    assert (Hr : records !! a = Some (record_of user_prompt id caption))
      by (unfold records; rewrite lookup_zip_with, Hid; cbn; now rewrite Hc).
    assert (Hf : files !! a = Some (file_of id img))
      by (unfold files; rewrite lookup_zip_with, Hid; cbn; now rewrite Him).
    rewrite (drop_S _ _ _ Hr), (drop_S _ _ _ Hf). cbn [take].
    rewrite <- !app_assoc. done.
Qed.

(** The loop over the indices [a, a + k) inside the batch, when no file
    fails to be written. *)
Lemma loop_run (k : nat) :
  forall (a : nat) (acc : list pyval) (d : list (string * Image)),
    (forall d0 img path, save_error d0 img path = None) ->
    (a + k <= length (imgid batch))%nat ->
    length (image batch) = length (imgid batch) ->
    length (detailed_caption batch) = length (imgid batch) ->
    for_in (Z.of_nat <$> seq a k) acc
           (convert_row save_error batch user_prompt) d =
    (Ok (acc ++ take k (drop a records)), d ++ take k (drop a files)).
Proof.
  induction k as [|k IH]; intros a acc d Hs Hk Hi Hc.
  - cbn. rewrite !take_0, !app_nil_r. done.
  - cbn [seq fmap list_fmap for_in]. unfold bind.
    destruct (lookup_lt_is_Some_2 (imgid batch) a) as [id Hid]; [lia|].
    destruct (lookup_lt_is_Some_2 (image batch) a) as [img Him]; [lia|].
    destruct (lookup_lt_is_Some_2 (detailed_caption batch) a) as [c Hcap]; [lia|].
    rewrite (convert_row_run acc a d id img c Hid Him Hcap (Hs _ _ _)).
    rewrite IH by (assumption || lia).
    assert (Hr : records !! a = Some (record_of user_prompt id c))
      by (unfold records; rewrite lookup_zip_with, Hid; cbn; now rewrite Hcap).
    assert (Hf : files !! a = Some (file_of id img))
      by (unfold files; rewrite lookup_zip_with, Hid; cbn; now rewrite Him).
    rewrite (drop_S _ _ _ Hr), (drop_S _ _ _ Hf). cbn [take].
    rewrite <- !app_assoc. done.
Qed.

(** When every column has the rows that [batch_size] announces, one
    record is appended and one file is written per row, in row order. *)
Lemma preprocess_full_batch (batch_size : Z) (d : list (string * Image)) :
  (forall d0 img path, save_error d0 img path = None) ->
  length (image batch) = length (imgid batch) ->
  length (detailed_caption batch) = length (imgid batch) ->
  batch_size = Z.of_nat (length (imgid batch)) ->
  preprocess save_error batch batch_size user_prompt d =
    (Ok {| imgid := imgid batch; image := image batch;
           detailed_caption := detailed_caption batch;
           json := records |},
     d ++ files)
  /\ length records = length (imgid batch)
  /\ length files = length (imgid batch).
Proof.
  intros Hs Hi Hc ->.
  assert (Hlr : length records = length (imgid batch))
    by (unfold records; rewrite length_zip_with; lia).
  assert (Hlf : length files = length (imgid batch))
    by (unfold files; rewrite length_zip_with; lia).
  split; [|split; assumption].
  unfold preprocess, bind, range. rewrite Nat2Z.id.
  rewrite (loop_run _ 0 [] d Hs) by (assumption || lia).
  change (drop 0 records) with records. change (drop 0 files) with files.
  rewrite (take_ge records), (take_ge files) by lia. reflexivity.
Qed.

(** The loop over [range(n)] on a batch of fewer than [n] rows writes the
    file of every row and then raises at the first index past the end. *)
Lemma loop_past_end (n : nat) (d : list (string * Image)) :
  (forall d0 img path, save_error d0 img path = None) ->
  length (image batch) = length (imgid batch) ->
  length (detailed_caption batch) = length (imgid batch) ->
  (length (imgid batch) < n)%nat ->
  for_in (Z.of_nat <$> seq 0 n) [] (convert_row save_error batch user_prompt) d =
    (Raise IndexError, d ++ files).
Proof.
  intros Hs Hi Hc Hlt.
  set (L := length (imgid batch)) in *.
  replace n with (L + S (n - S L))%nat by lia.
  rewrite seq_app, fmap_app, for_in_app. unfold bind.
  rewrite (loop_run _ 0 [] d Hs) by (assumption || (fold L; lia)).
  change (drop 0 files) with files.
  cbn [seq fmap list_fmap for_in]. unfold bind.
  rewrite convert_row_past_end by (fold L; lia).
  rewrite (take_ge files); [reflexivity|].
  unfold files. rewrite length_zip_with. fold L. lia.
Qed.

(** C1.  A batch that holds fewer rows than [batch_size], such as the
    last slice of a dataset whose size is no multiple of the batch size:
    the loop still runs over [range(batch_size)], writes the file of
    every row there is, and raises [IndexError] at the first index past
    the end.  No record is returned. *)
Theorem preprocess_short_batch_raises (batch_size : Z)
    (d : list (string * Image)) :
  (forall d0 img path, save_error d0 img path = None) ->
  length (image batch) = length (imgid batch) ->
  length (detailed_caption batch) = length (imgid batch) ->
  Z.of_nat (length (imgid batch)) < batch_size ->
  preprocess save_error batch batch_size user_prompt d =
    (Raise IndexError, d ++ files).
Proof.
  intros Hs Hi Hc Hlt. unfold preprocess, bind, range.
  rewrite (loop_past_end _ d Hs Hi Hc) by lia. reflexivity.
Qed.

(** C3.  Whenever [preprocess] returns, every record of the [json]
    column is the dictionary with the row's identifier under [id], the
    identifier followed by [.jpg] under [image], and under
    [conversations] the list of exactly two turns: the one from [human]
    with the placeholder, a newline and the user prompt, then the one
    from [gpt] with the row's detailed caption.  The human turn contains
    the placeholder. *)
Theorem preprocess_record_shape (batch_size : Z)
    (d d' : list (string * Image)) (out : @Batch Image) :
  preprocess save_error batch batch_size user_prompt d = (Ok out, d') ->
  forall (i : nat) (r : pyval),
    json out !! i = Some r ->
    exists (id : ident) (caption : string),
      imgid batch !! i = Some id /\
      detailed_caption batch !! i = Some caption /\
      r = PyDict
            [("id", ident_val id);
             ("image", PyStr (format_ident id +:+ ".jpg"));
             ("conversations",
              PyList
                [PyDict [("from", PyStr "human");
                         ("value", PyStr ("<image>" +:+ nl +:+ user_prompt))];
                 PyDict [("from", PyStr "gpt");
                         ("value", PyStr caption)]])] /\
      contains "<image>" ("<image>" +:+ nl +:+ user_prompt) = true.
Proof.
  unfold preprocess, bind, range.
  destruct (for_in _ [] _ d) as [[acc|e] d1] eqn:Hloop; [|discriminate].
  intros [= <- <-] i r Hr. cbn [json] in Hr.
  apply loop_ok in Hloop as [-> _]. cbn [drop app] in Hr.
  apply lookup_take_Some in Hr as [Hr _].
  unfold records in Hr.
  apply lookup_zip_with_Some in Hr as (id & caption & -> & Hid & Hc).
  exists id, caption. repeat split; assumption.
Qed.

End Converter.

(** The same at the level of the cell: a dataset of fewer than 1000 rows is
    handed to [preprocess] as one slice, and the conversion stops with
    [IndexError] after the files have been written. *)
Lemma convert_dataset_short {Image : Type}
    (save_error : list (string * Image) -> Image -> string ->
    option (exn * list (string * Image)))
    (ds : @Batch Image) (d : list (string * Image)) :
  (forall d0 img path, save_error d0 img path = None) ->
  length (image ds) = length (imgid ds) ->
  length (detailed_caption ds) = length (imgid ds) ->
  (0 < length (imgid ds) < 1000)%nat ->
  convert_dataset save_error ds d =
    (Raise IndexError, d ++ zip_with file_of (imgid ds) (image ds)).
Proof.
  intros Hs Hi Hc [Hpos Hlt].
  pose proof (loop_past_end save_error
                {| imgid := imgid ds; image := image ds;
                   detailed_caption := detailed_caption ds; json := [] |}
                user_prompt 1000 d Hs Hi Hc Hlt) as Hloop.
  cbn [imgid image] in Hloop.
  assert (Hsl : exists rest,
            slices (length (imgid ds)) 1000 ds =
            {| imgid := imgid ds; image := image ds;
               detailed_caption := detailed_caption ds; json := [] |} :: rest).
  { destruct (length (imgid ds)) as [|L'] eqn:HL; [lia|]. cbn [slices].
    destruct (imgid ds) as [|id ids] eqn:Hids; [discriminate|].
    rewrite !take_ge by lia. eexists. reflexivity. }
  destruct Hsl as [rest Hsl].
  unfold convert_dataset, ds_map.
  change (Z.to_nat batch_size) with 1000%nat. rewrite Hsl.
  cbn [for_in]. unfold bind, preprocess, range.
  cbn [imgid image detailed_caption].
  change (Z.to_nat batch_size) with 1000%nat. unfold bind.
  rewrite Hloop. reflexivity.
Qed.

Lemma preprocess_short_batch_raises_witness :
  preprocess (fun _ _ _ => None) last_slice batch_size user_prompt [] =
  (Raise IndexError,
   [("llava_dataset/images/8000.jpg", "pixels of 8000");
    ("llava_dataset/images/8001.jpg", "pixels of 8001")]).
Proof.
  apply (preprocess_short_batch_raises (fun _ _ _ => None) last_slice
           user_prompt batch_size []).
  - intros; reflexivity.
  - reflexivity.
  - reflexivity.
  - vm_compute. reflexivity.
Defined.

Lemma preprocess_record_shape_witness :
  exists (id : ident) (caption : string),
    imgid last_slice !! 1%nat = Some id /\
    detailed_caption last_slice !! 1%nat = Some caption /\
    record_of user_prompt (IdInt 8001) "İki çocuk oynuyor." =
      PyDict
        [("id", ident_val id);
         ("image", PyStr (format_ident id +:+ ".jpg"));
         ("conversations",
          PyList
            [PyDict [("from", PyStr "human");
                     ("value", PyStr ("<image>" +:+ nl +:+ user_prompt))];
             PyDict [("from", PyStr "gpt");
                     ("value", PyStr caption)]])] /\
    contains "<image>" ("<image>" +:+ nl +:+ user_prompt) = true.
Proof.
  apply (preprocess_record_shape (fun _ _ _ => None) last_slice user_prompt 2 []
           [("llava_dataset/images/8000.jpg", "pixels of 8000");
            ("llava_dataset/images/8001.jpg", "pixels of 8001")]
           {| imgid := imgid last_slice; image := image last_slice;
              detailed_caption := detailed_caption last_slice;
              json := [record_of user_prompt (IdInt 8000) "Bir köpek koşuyor.";
                       record_of user_prompt (IdInt 8001) "İki çocuk oynuyor."] |}
           ltac:(vm_compute; reflexivity) 1%nat).
  reflexivity.
Defined.

End DatasetFacts.

(** ** The patched [_add_speaker_and_signal] *)

Module SpeakerFacts.
Import Py FineTuning Examples StrFacts.

Lemma role_header_roles (from_str : string) :
  (if bool_decide (lower from_str = "human")
   then (roles default_conversation).1
   else if bool_decide (lower from_str = "gpt")
        then (roles default_conversation).2
        else "unknown") = role_header from_str.
Proof. reflexivity. Qed.

Lemma role_header_cases (from_str : string) :
  (lower from_str = "human" ->
   role_header from_str = "<|start_header_id|>user<|end_header_id|>" +:+ nl +:+ nl) /\
  (lower from_str = "gpt" ->
   role_header from_str = "<|start_header_id|>assistant<|end_header_id|>" +:+ nl +:+ nl) /\
  (lower from_str <> "human" -> lower from_str <> "gpt" ->
   role_header from_str = "unknown").
Proof.
  unfold role_header. repeat split.
  - intros ->. reflexivity.
  - intros ->. reflexivity.
  - intros H1 H2. now rewrite !bool_decide_eq_false_2.
Qed.

(** One turn of the loop on a well-formed turn dictionary. *)
Lemma add_speaker_run (get_conversation : bool) (conversation : string)
    (l : nat) (turn : string * string) (h : Heap) (d : gmap string string) :
  h !! l = Some d -> d !! "from" = Some turn.1 -> d !! "value" = Some turn.2 ->
  add_speaker get_conversation conversation l h =
  (Ok (if get_conversation then conversation +:+ signalled turn
       else conversation),
   <[l := <["value" := signalled turn]> d]> h).
Proof.
  intros Hl Hf Hv. unfold add_speaker, bind, dict_get, dict_set.
  rewrite Hl, Hf, Hl, Hv, Hl, role_header_roles.
  destruct get_conversation; [|reflexivity].
  rewrite lookup_insert_eq, lookup_insert_eq. reflexivity.
Qed.

Lemma Forall2_impl_elem {A B} (P Q : A -> B -> Prop) (xs : list A) (ys : list B) :
  Forall2 P xs ys -> (forall x y, x ∈ xs -> P x y -> Q x y) -> Forall2 Q xs ys.
Proof.
  induction 1 as [|x y xs ys HP HF IH]; intros HPQ; constructor.
  - apply HPQ; [left | exact HP].
  - apply IH. intros x' y' Hin. apply HPQ. now right.
Qed.

(** The loop of [patched_fn] over distinct, well-formed turns. *)
Lemma add_speaker_loop (get_conversation : bool) (source : list nat) :
  forall (turns : list (string * string)) (h : Heap) (conversation : string),
    NoDup source -> Forall2 (holds_turn h) source turns ->
    exists h',
      for_in source conversation (add_speaker get_conversation) h =
        (Ok (conversation +:+
             (if get_conversation then concat_str (signalled <$> turns) else "")),
         h') /\
      Forall2 (rewritten h h') source turns /\
      (forall l, l ∉ source -> h' !! l = h !! l).
Proof.
  induction source as [|l source IH]; intros turns h conversation Hnd HF.
  - apply Forall2_nil_inv_l in HF as ->. exists h.
    cbn [for_in ret fmap list_fmap concat_str].
    destruct get_conversation; rewrite app_nil_r; repeat split; constructor.
  - apply Forall2_cons_inv_l in HF
      as (turn & turns' & (d & Hl & Hf & Hv) & HF & ->).
    apply NoDup_cons in Hnd as [Hnotin Hnd].
    set (h1 := <[l := <["value" := signalled turn]> d]> h).
    assert (Hframe1 : forall l', l' ∈ source -> h1 !! l' = h !! l').
    { intros l' Hin. unfold h1. apply lookup_insert_ne. intros ->. contradiction. }
    assert (HF1 : Forall2 (holds_turn h1) source turns').
    { apply (Forall2_impl_elem (holds_turn h)); [exact HF|].
      intros l' t' Hin (d' & Hl' & Hrest). exists d'.
      rewrite (Hframe1 _ Hin). done. }
    destruct (IH turns' h1
                (if get_conversation then conversation +:+ signalled turn
                 else conversation) Hnd HF1) as (h' & Hrun & Hrw & Hframe).
    exists h'. split; [|split].
    + cbn [for_in]. unfold bind.
      rewrite (add_speaker_run _ _ l turn h d Hl Hf Hv). fold h1. rewrite Hrun.
      destruct get_conversation; [|reflexivity].
      cbn [fmap list_fmap concat_str]. rewrite app_assoc. reflexivity.
    + constructor.
      * exists d. rewrite (Hframe l Hnotin). unfold h1.
        rewrite lookup_insert_eq. done.
      * apply (Forall2_impl_elem (rewritten h1 h')); [exact Hrw|].
        intros l' t' Hin (d' & Hl' & Hrest). exists d'.
        rewrite <- (Hframe1 _ Hin). done.
    + intros l' Hnot. apply not_elem_of_cons in Hnot as [Hne Hnot].
      rewrite (Hframe _ Hnot). unfold h1. apply lookup_insert_ne. congruence.
Qed.

(** After the loop the same references hold the same senders with the
    signalled texts: a second call starts from those. *)
Lemma rewritten_holds (h h' : Heap) (source : list nat)
    (turns : list (string * string)) :
  Forall2 (rewritten h h') source turns ->
  Forall2 (holds_turn h') source ((fun t => (t.1, signalled t)) <$> turns).
Proof.
  induction 1 as [|l t source turns (d & Hl & Hf & Hv & Hl') HF IH];
    cbn [fmap list_fmap]; constructor; [|exact IH].
  exists (<["value" := signalled t]> d). split; [exact Hl'|]. cbn [fst snd].
  rewrite lookup_insert_ne by discriminate. rewrite lookup_insert_eq. done.
Qed.

Lemma signalled_longer (turn : string * string) :
  (String.length turn.2 < String.length (signalled turn))%nat.
Proof.
  unfold signalled. rewrite !length_app. cbn [String.length EOS_TOKEN]. lia.
Qed.

Lemma signalled_changes (turn : string * string) : signalled turn <> turn.2.
Proof.
  intros E. pose proof (signalled_longer turn) as H. rewrite E in H. lia.
Qed.

Lemma two_turns_held : Forall2 (holds_turn two_turns) [0%nat; 1%nat] two_turns_content.
Proof.
  repeat constructor.
  - exists (<["from" := "human"]> (<["value" := "<image>" +:+ nl +:+ "Ne var?"]> ∅)).
    repeat split.
  - exists (<["from" := "gpt"]> (<["value" := "Bir köpek."]> ∅)).
    repeat split.
Qed.

Lemma two_refs_distinct : NoDup [0%nat; 1%nat].
Proof. apply (bool_decide_unpack _). vm_compute. exact I. Qed.

(** C4, amended.  On distinct turn dictionaries that carry a sender and a
    text: called with [get_conversation] true (the default), [patched_fn]
    returns the header, then for each turn in order the end-of-sequence
    token, the role header of its sender and its original text, then one
    more end-of-sequence token, where the sender is compared with
    ["human"] and ["gpt"] after lower-casing it; called with
    [get_conversation] false it returns the header and the
    end-of-sequence token only.  Either way the result ends with the
    end-of-sequence token. *)
Theorem patched_fn_conversation (header : string) (source : list nat)
    (turns : list (string * string)) (h : Heap) :
  NoDup source -> Forall2 (holds_turn h) source turns ->
  (patched_fn header source true h).1 =
    Ok (header
        +:+ concat_str
              ((fun t => "<|eot_id|>" +:+ role_header t.1 +:+ t.2) <$> turns)
        +:+ "<|eot_id|>") /\
  (patched_fn header source false h).1 = Ok (header +:+ "<|eot_id|>") /\
  (forall get_conversation : bool,
     exists body : string,
       (patched_fn header source get_conversation h).1 =
         Ok (body +:+ "<|eot_id|>")).
Proof.
  intros Hnd HF.
  assert (Hrun : forall gc,
    (patched_fn header source gc h).1 =
      Ok ((header +:+ (if gc then concat_str (signalled <$> turns) else ""))
          +:+ EOS_TOKEN)).
  { intros gc. unfold patched_fn, bind.
    destruct (add_speaker_loop gc source turns h header Hnd HF)
      as (h' & -> & _). reflexivity. }
  split; [|split].
  - rewrite Hrun, app_assoc. reflexivity.
  - rewrite Hrun, app_nil_r. reflexivity.
  - intros gc. eexists. rewrite Hrun. reflexivity.
Qed.

Lemma patched_fn_conversation_witness :
  (patched_fn "" [0%nat; 1%nat] true two_turns).1 =
    Ok ("<|eot_id|><|start_header_id|>user<|end_header_id|>" +:+ nl +:+ nl
        +:+ "<image>" +:+ nl +:+ "Ne var?"
        +:+ "<|eot_id|><|start_header_id|>assistant<|end_header_id|>" +:+ nl +:+ nl
        +:+ "Bir köpek." +:+ "<|eot_id|>").
Proof.
  exact (proj1 (patched_fn_conversation "" [0%nat; 1%nat] two_turns_content
                  two_turns two_refs_distinct two_turns_held)).
Defined.

(** The sentence as stated fails on the code in two ways: a turn from
    ["Human"] is given the user role, not ["unknown"]; and with
    [get_conversation] false no turn is part of what is returned. *)
Lemma patched_fn_not_as_stated :
  (patched_fn "" [0%nat] true
     {[0%nat := <["from" := "Human"]> (<["value" := "x"]> ∅)]}).1
    <> Ok (conversation_as_stated "" [("Human", "x")]) /\
  (patched_fn "H" [0%nat] false
     {[0%nat := <["from" := "human"]> (<["value" := "x"]> ∅)]}).1
    <> Ok (conversation_as_stated "H" [("human", "x")]).
Proof. split; vm_compute; discriminate. Qed.

(** C9, amended.  [patched_fn] overwrites its argument.  For a list of
    distinct turn dictionaries: after a call, with [get_conversation]
    true or false, the [value] of every turn of the list is the
    end-of-sequence token, the role header and the original text, which
    is not the original text; and a second call on the same list,
    whatever its [get_conversation], leaves every [value] with the token
    and the role header twice in front of the original text, which is not
    what the first call left. *)
Theorem patched_fn_overwrites_source (header : string) (source : list nat)
    (turns : list (string * string)) (h : Heap)
    (get_conversation get_conversation' : bool) :
  NoDup source -> Forall2 (holds_turn h) source turns ->
  exists (conversation conversation' : string) (h1 h2 : Heap),
    patched_fn header source get_conversation h = (Ok conversation, h1) /\
    patched_fn header source get_conversation' h1 = (Ok conversation', h2) /\
    Forall2
      (fun l turn =>
         exists d,
           h !! l = Some d /\ d !! "value" = Some turn.2 /\
           h1 !! l =
             Some (<["value" := "<|eot_id|>" +:+ role_header turn.1 +:+ turn.2]> d) /\
           h2 !! l =
             Some (<["value" := "<|eot_id|>" +:+ role_header turn.1
                                 +:+ "<|eot_id|>" +:+ role_header turn.1 +:+ turn.2]> d) /\
           h1 !! l <> h !! l /\ h2 !! l <> h1 !! l)
      source turns.
Proof.
  intros Hnd HF.
  destruct (add_speaker_loop get_conversation source turns h header Hnd HF)
    as (h1 & Hrun1 & Hrw1 & _).
  pose proof (rewritten_holds _ _ _ _ Hrw1) as HF1.
  destruct (add_speaker_loop get_conversation' source _ h1 header Hnd HF1)
    as (h2 & Hrun2 & Hrw2 & _).
  eexists _, _, h1, h2. split; [|split].
  - unfold patched_fn, bind. rewrite Hrun1. reflexivity.
  - unfold patched_fn, bind. rewrite Hrun2. reflexivity.
  - clear Hrun1 Hrun2 HF HF1 Hnd.
    revert Hrw2. induction Hrw1 as [|l t source turns Hl Hrest IH];
      cbn [fmap list_fmap]; intros Hrw2; [constructor|].
    apply Forall2_cons_1 in Hrw2 as [Hl2 Hrw2].
    constructor; [|exact (IH Hrw2)].
    destruct Hl as (d & Hd & Hf & Hv & Hd1).
    destruct Hl2 as (d1 & Hd1' & _ & _ & Hd2).
    rewrite Hd1 in Hd1'. injection Hd1' as <-.
    rewrite insert_insert_eq in Hd2.
    exists d. repeat split; try assumption.
    + rewrite Hd1, Hd. intros [= E].
      apply (f_equal (fun m : gmap string string => m !! "value")) in E.
      rewrite lookup_insert_eq, Hv in E. apply (inj Some) in E.
      exact (signalled_changes t E).
    + rewrite Hd2, Hd1. intros [= E].
      apply (f_equal (fun m : gmap string string => m !! "value")) in E.
      rewrite !lookup_insert_eq in E. apply (inj Some) in E.
      exact (signalled_changes (t.1, signalled t) E).
Qed.

Lemma patched_fn_overwrites_source_witness :
  exists (conversation conversation' : string) (h1 h2 : Heap),
    patched_fn "" [0%nat; 1%nat] false two_turns = (Ok conversation, h1) /\
    patched_fn "" [0%nat; 1%nat] true h1 = (Ok conversation', h2) /\
    Forall2
      (fun l turn =>
         exists d,
           two_turns !! l = Some d /\ d !! "value" = Some turn.2 /\
           h1 !! l =
             Some (<["value" := "<|eot_id|>" +:+ role_header turn.1 +:+ turn.2]> d) /\
           h2 !! l =
             Some (<["value" := "<|eot_id|>" +:+ role_header turn.1
                                 +:+ "<|eot_id|>" +:+ role_header turn.1 +:+ turn.2]> d) /\
           h1 !! l <> two_turns !! l /\ h2 !! l <> h1 !! l)
      [0%nat; 1%nat] two_turns_content.
Proof.
  exact (patched_fn_overwrites_source "" [0%nat; 1%nat] two_turns_content
           two_turns false true two_refs_distinct two_turns_held).
Defined.

(** The sentence as stated, for every list of turns, fails on a list that
    names one dictionary twice: a single call passes it twice and leaves
    its [value] with the token and the role header twice in front of the
    original text, not once. *)
Lemma patched_fn_overwrites_not_as_stated :
  (patched_fn "" [0%nat; 0%nat] true
     {[0%nat := {["from" := "human"; "value" := "x"]}]}).2
    !! 0%nat ≫= (fun d => d !! "value") =
    Some ("<|eot_id|>" +:+ role_header "human"
          +:+ "<|eot_id|>" +:+ role_header "human" +:+ "x") /\
  (patched_fn "" [0%nat; 0%nat] true
     {[0%nat := {["from" := "human"; "value" := "x"]}]}).2
    !! 0%nat ≫= (fun d => d !! "value") <>
    Some ("<|eot_id|>" +:+ role_header "human" +:+ "x").
Proof. split; vm_compute; [reflexivity | discriminate]. Qed.

End SpeakerFacts.

(** ** Witness runs of the inference notebook *)

Module InferenceRuns.
Import Py Inference Examples InferenceFacts.

Lemma download_image_ignores_status_witness :
  download_image get_404 open_unidentified "https://example.org/cat.jpg" [] =
    (Raise (LibraryError "UnidentifiedImageError"),
     ["requests.get https://example.org/cat.jpg"; "Image.open"]) /\
  download_image get_200 open_unidentified "https://example.org/cat.jpg" [] =
    download_image get_404 open_unidentified "https://example.org/cat.jpg" [].
Proof.
  destruct (download_image_ignores_status open_unidentified get_404 get_200
              "https://example.org/cat.jpg" []
              ["requests.get https://example.org/cat.jpg"]
              {| status_code := 404; content := not_found_body |}
              {| status_code := 200; content := not_found_body |}
              eq_refl eq_refl eq_refl) as (H1 & H2 & _).
  split; [rewrite H1; reflexivity | exact H2].
Defined.

Lemma generation_config_exact_witness :
  generation_config !! "temperature" = None /\
  run_inference (fun _ _ _ => call1 "tokenizer_image_token")
    (fun _ _ => call1 "unsqueeze") (fun _ => call1 "cuda")
    (fun _ _ _ => call1 "process_images") (fun _ _ _ => call1 "to")
    (fun _ _ _ _ _ => call1 "generate") (fun _ _ _ => decode_one "batch_decode")
    (fun _ : string => "config") (fun _ : string => "cuda:0")
    (fun _ : string => (640, 480))
    "model" "tokenizer" "image_processor" "image" "prompt" [] =
  (Ok ["Bir köpek çimlerde koşuyor."],
   ["tokenizer_image_token"; "unsqueeze"; "cuda"; "process_images"; "to";
    "generate"; "batch_decode"]).
Proof.
  destruct (generation_config_exact
              (fun _ _ _ => call1 "tokenizer_image_token")
              (fun _ _ => call1 "unsqueeze") (fun _ => call1 "cuda")
              (fun _ _ _ => call1 "process_images") (fun _ _ _ => call1 "to")
              (fun _ _ _ _ _ => call1 "generate")
              (fun _ _ _ => decode_one "batch_decode")
              (fun _ : string => "config") (fun _ : string => "cuda:0")
              (fun _ : string => (640, 480))
              "model" "tokenizer" "image_processor" "image" "prompt"
              "tokenizer_image_token" "unsqueeze" "cuda" "process_images" "to"
              [] _ _ _ _ _ eq_refl eq_refl eq_refl eq_refl eq_refl)
    as (_ & _ & _ & Ht & _ & Hrun).
  split; [exact Ht | rewrite Hrun; reflexivity].
Defined.

End InferenceRuns.

(** ** Exceptions are not handled *)

Module PropagationFacts.
Import Py Inference FineTuning Examples DatasetFacts.

Lemma bind_raise {St A B} (m : M St A) (k : A -> M St B) (s s' : St) (e : exn) :
  m s = (Raise e, s') -> bind m k s = (Raise e, s').
Proof. unfold bind. now intros ->. Qed.

Lemma bind_ok {St A B} (m : M St A) (k : A -> M St B) (s s' : St) (a : A) :
  m s = (Ok a, s') -> bind m k s = k a s'.
Proof. unfold bind. now intros ->. Qed.

(** A loop that reaches a turn whose body raises ends with that
    exception, in the state the body left. *)
Lemma for_in_raise {St A B} (xs ys : list A) (x : A) (acc acc1 : B)
    (body : B -> A -> M St B) (s s1 s2 : St) (e : exn) :
  for_in xs acc body s = (Ok acc1, s1) ->
  body acc1 x s1 = (Raise e, s2) ->
  for_in (xs ++ x :: ys) acc body s = (Raise e, s2).
Proof.
  intros Hxs Hx. rewrite for_in_app. rewrite (bind_ok _ _ _ _ _ Hxs).
  cbn [for_in]. exact (bind_raise _ _ _ _ _ Hx).
Qed.

Section NoHandlers.
Context {W Image Tensor Model Tokenizer ImageProcessor Config Device : Type}.
Variable requests_get : string -> M W Response.
Variable Image_open : list Byte.byte -> M W Image.
Variable tokenizer_image_token : string -> Tokenizer -> string -> M W Tensor.
Variable unsqueeze : Tensor -> Z -> M W Tensor.
Variable cuda : Tensor -> M W Tensor.
Variable process_images : list Image -> ImageProcessor -> Config -> M W Tensor.
Variable to : Tensor -> Device -> string -> M W Tensor.
Variable generate :
  Model -> Tensor -> Tensor -> list (Z * Z) -> gmap string pyval -> M W Tensor.
Variable batch_decode : Tokenizer -> Tensor -> bool -> M W (list string).
Variable config : Model -> Config.
Variable device : Model -> Device.
Variable size : Image -> Z * Z.
Variable path_exists : Path -> M W bool.
Variable path_mkdir : Path -> bool -> bool -> M W unit.
Variable save_error : list (string * Image) -> Image -> string ->
    option (exn * list (string * Image)).

(** The arguments of one call of [inference]. *)
Variable model : Model.
Variable tokenizer : Tokenizer.
Variable image_processor : ImageProcessor.
Variable image : Image.
Variable prompt : string.
Variable kwargs : gmap string pyval.

Let run_inference : M W (list string) :=
  inference tokenizer_image_token unsqueeze cuda process_images to generate
    batch_decode config device size
    model tokenizer image_processor image prompt kwargs.

(** C6.  None of the six functions handles an exception: whenever a call
    it delegates raises, or a lookup it makes fails, the function ends
    with that very exception, in the state that call left.  This is
    stated call by call, for every argument, for [download_image],
    [inference], [prepare_dataset_path] (over any [Path.exists] and
    [Path.mkdir]), [preprocess] and [patched_fn]; [preprocess_prompt]
    makes no call that can raise. *)
Theorem exceptions_propagate :
  (* download_image *)
  (forall url w e w',
     requests_get url w = (Raise e, w') ->
     download_image requests_get Image_open url w = (Raise e, w')) /\
  (forall url w r w1 e w2,
     requests_get url w = (Ok r, w1) ->
     Image_open (content r) w1 = (Raise e, w2) ->
     download_image requests_get Image_open url w = (Raise e, w2)) /\
  (* inference *)
  (forall w e w',
     tokenizer_image_token prompt tokenizer "pt" w = (Raise e, w') ->
     run_inference w = (Raise e, w')) /\
  (forall w t0 w1 e w',
     tokenizer_image_token prompt tokenizer "pt" w = (Ok t0, w1) ->
     unsqueeze t0 0 w1 = (Raise e, w') ->
     run_inference w = (Raise e, w')) /\
  (forall w t0 w1 t1 w2 e w',
     tokenizer_image_token prompt tokenizer "pt" w = (Ok t0, w1) ->
     unsqueeze t0 0 w1 = (Ok t1, w2) ->
     cuda t1 w2 = (Raise e, w') ->
     run_inference w = (Raise e, w')) /\
  (forall w t0 w1 t1 w2 input_ids w3 e w',
     tokenizer_image_token prompt tokenizer "pt" w = (Ok t0, w1) ->
     unsqueeze t0 0 w1 = (Ok t1, w2) ->
     cuda t1 w2 = (Ok input_ids, w3) ->
     process_images [image] image_processor (config model) w3 = (Raise e, w') ->
     run_inference w = (Raise e, w')) /\
  (forall w t0 w1 t1 w2 input_ids w3 p0 w4 e w',
     tokenizer_image_token prompt tokenizer "pt" w = (Ok t0, w1) ->
     unsqueeze t0 0 w1 = (Ok t1, w2) ->
     cuda t1 w2 = (Ok input_ids, w3) ->
     process_images [image] image_processor (config model) w3 = (Ok p0, w4) ->
     to p0 (device model) "float16" w4 = (Raise e, w') ->
     run_inference w = (Raise e, w')) /\
  (forall w t0 w1 t1 w2 input_ids w3 p0 w4 image_tensor w5 e w',
     tokenizer_image_token prompt tokenizer "pt" w = (Ok t0, w1) ->
     unsqueeze t0 0 w1 = (Ok t1, w2) ->
     cuda t1 w2 = (Ok input_ids, w3) ->
     process_images [image] image_processor (config model) w3 = (Ok p0, w4) ->
     to p0 (device model) "float16" w4 = (Ok image_tensor, w5) ->
     generate model input_ids image_tensor [size image] kwargs w5 = (Raise e, w') ->
     run_inference w = (Raise e, w')) /\
  (forall w t0 w1 t1 w2 input_ids w3 p0 w4 image_tensor w5 output_ids w6 e w',
     tokenizer_image_token prompt tokenizer "pt" w = (Ok t0, w1) ->
     unsqueeze t0 0 w1 = (Ok t1, w2) ->
     cuda t1 w2 = (Ok input_ids, w3) ->
     process_images [image] image_processor (config model) w3 = (Ok p0, w4) ->
     to p0 (device model) "float16" w4 = (Ok image_tensor, w5) ->
     generate model input_ids image_tensor [size image] kwargs w5 =
       (Ok output_ids, w6) ->
     batch_decode tokenizer output_ids true w6 = (Raise e, w') ->
     run_inference w = (Raise e, w')) /\
  (* prepare_dataset_path *)
  (forall (dir : Path) w e w',
     path_exists dir w = (Raise e, w') ->
     prepare_dataset_path path_exists path_mkdir dir w = (Raise e, w')) /\
  (forall (dir : Path) w w1 e w',
     path_exists dir w = (Ok false, w1) ->
     path_mkdir dir true false w1 = (Raise e, w') ->
     prepare_dataset_path path_exists path_mkdir dir w = (Raise e, w')) /\
  (forall (dir : Path) w w1 e w',
     (found <- path_exists dir ;;
      if negb found then path_mkdir dir true false else ret tt)%py w
       = (Ok tt, w1) ->
     path_exists ("images" :: dir) w1 = (Raise e, w') ->
     prepare_dataset_path path_exists path_mkdir dir w = (Raise e, w')) /\
  (forall (dir : Path) w w1 w2 e w',
     (found <- path_exists dir ;;
      if negb found then path_mkdir dir true false else ret tt)%py w
       = (Ok tt, w1) ->
     path_exists ("images" :: dir) w1 = (Ok false, w2) ->
     path_mkdir ("images" :: dir) true false w2 = (Raise e, w') ->
     prepare_dataset_path path_exists path_mkdir dir w = (Raise e, w')) /\
  (* preprocess *)
  (forall (batch : @Batch Image) (user_prompt : string) acc (i : nat) d,
     imgid batch !! i = None ->
     convert_row save_error batch user_prompt acc (Z.of_nat i) d
       = (Raise IndexError, d)) /\
  (forall (batch : @Batch Image) (user_prompt : string) acc (i : nat) d id,
     imgid batch !! i = Some id ->
     FineTuning.image batch !! i = None ->
     convert_row save_error batch user_prompt acc (Z.of_nat i) d
       = (Raise IndexError, d)) /\
  (forall (batch : @Batch Image) (user_prompt : string) acc (i : nat) d id img
          e d',
     imgid batch !! i = Some id ->
     FineTuning.image batch !! i = Some img ->
     save_error d img ("llava_dataset/images/" +:+ format_ident id +:+ ".jpg")
       = Some (e, d') ->
     convert_row save_error batch user_prompt acc (Z.of_nat i) d = (Raise e, d')) /\
  (forall (batch : @Batch Image) (user_prompt : string) acc (i : nat) d id img,
     imgid batch !! i = Some id ->
     FineTuning.image batch !! i = Some img ->
     save_error d img ("llava_dataset/images/" +:+ format_ident id +:+ ".jpg")
       = None ->
     detailed_caption batch !! i = None ->
     convert_row save_error batch user_prompt acc (Z.of_nat i) d
       = (Raise IndexError,
          d ++ [("llava_dataset/images/" +:+ format_ident id +:+ ".jpg", img)])) /\
  (forall (batch : @Batch Image) (batch_size : Z) (user_prompt : string)
          (i : nat) acc d d1 e d2,
     Z.of_nat i < batch_size ->
     for_in (range (Z.of_nat i)) []
            (convert_row save_error batch user_prompt) d = (Ok acc, d1) ->
     convert_row save_error batch user_prompt acc (Z.of_nat i) d1 = (Raise e, d2) ->
     preprocess save_error batch batch_size user_prompt d = (Raise e, d2)) /\
  (* patched_fn *)
  (forall get_conversation conversation (l : nat) (h : Heap) d,
     h !! l = Some d -> d !! "from" = None ->
     add_speaker get_conversation conversation l h = (Raise (KeyError "from"), h)) /\
  (forall get_conversation conversation (l : nat) (h : Heap) d from_str,
     h !! l = Some d -> d !! "from" = Some from_str -> d !! "value" = None ->
     add_speaker get_conversation conversation l h = (Raise (KeyError "value"), h)) /\
  (forall header (before after : list nat) (l : nat) get_conversation
          (h h1 h2 : Heap) conversation e,
     for_in before header (add_speaker get_conversation) h = (Ok conversation, h1) ->
     add_speaker get_conversation conversation l h1 = (Raise e, h2) ->
     patched_fn header (before ++ l :: after) get_conversation h = (Raise e, h2)).
Proof.
  repeat apply conj.
  - intros url w e w' H. exact (bind_raise _ _ _ _ _ H).
  - intros url w r w1 e w2 H1 H2. unfold download_image.
    rewrite (bind_ok _ _ _ _ _ H1). exact H2.
  - intros w e w' H. exact (bind_raise _ _ _ _ _ H).
  - intros w t0 w1 e w' H0 H. unfold run_inference, inference.
    rewrite (bind_ok _ _ _ _ _ H0). exact (bind_raise _ _ _ _ _ H).
  - intros w t0 w1 t1 w2 e w' H0 H1 H. unfold run_inference, inference.
    rewrite (bind_ok _ _ _ _ _ H0), (bind_ok _ _ _ _ _ H1).
    exact (bind_raise _ _ _ _ _ H).
  - intros w t0 w1 t1 w2 ids w3 e w' H0 H1 H2 H. unfold run_inference, inference.
    rewrite (bind_ok _ _ _ _ _ H0), (bind_ok _ _ _ _ _ H1), (bind_ok _ _ _ _ _ H2).
    exact (bind_raise _ _ _ _ _ H).
  - intros w t0 w1 t1 w2 ids w3 p0 w4 e w' H0 H1 H2 H3 H.
    unfold run_inference, inference.
    rewrite (bind_ok _ _ _ _ _ H0), (bind_ok _ _ _ _ _ H1), (bind_ok _ _ _ _ _ H2),
      (bind_ok _ _ _ _ _ H3).
    exact (bind_raise _ _ _ _ _ H).
  - intros w t0 w1 t1 w2 ids w3 p0 w4 it w5 e w' H0 H1 H2 H3 H4 H.
    unfold run_inference, inference.
    rewrite (bind_ok _ _ _ _ _ H0), (bind_ok _ _ _ _ _ H1), (bind_ok _ _ _ _ _ H2),
      (bind_ok _ _ _ _ _ H3), (bind_ok _ _ _ _ _ H4).
    exact (bind_raise _ _ _ _ _ H).
  - intros w t0 w1 t1 w2 ids w3 p0 w4 it w5 out w6 e w' H0 H1 H2 H3 H4 H5 H.
    unfold run_inference, inference.
    rewrite (bind_ok _ _ _ _ _ H0), (bind_ok _ _ _ _ _ H1), (bind_ok _ _ _ _ _ H2),
      (bind_ok _ _ _ _ _ H3), (bind_ok _ _ _ _ _ H4), (bind_ok _ _ _ _ _ H5).
    exact (bind_raise _ _ _ _ _ H).
  - intros dir w e w' H. exact (bind_raise _ _ _ _ _ H).
  - intros dir w w1 e w' H1 H2. unfold prepare_dataset_path.
    rewrite (bind_ok _ _ _ _ _ H1). cbn [negb]. exact (bind_raise _ _ _ _ _ H2).
  - intros dir w w1 e w' H1 H2. unfold prepare_dataset_path, bind in *.
    destruct (path_exists dir w) as [[found|e0] w0]; [|discriminate].
    destruct ((if negb found then path_mkdir dir true false else ret tt) w0)
      as [[[]|e0] w0']; [|discriminate].
    injection H1 as ->. rewrite H2. reflexivity.
  - intros dir w w1 w2 e w' H1 H2 H3. unfold prepare_dataset_path, bind in *.
    destruct (path_exists dir w) as [[found|e0] w0]; [|discriminate].
    destruct ((if negb found then path_mkdir dir true false else ret tt) w0)
      as [[[]|e0] w0']; [|discriminate].
    injection H1 as ->. rewrite H2. cbn [negb]. rewrite H3. reflexivity.
  - intros batch up acc i d Hid. unfold convert_row, bind.
    rewrite getitem_of_nat, Hid. reflexivity.
  - intros batch up acc i d id Hid Him. unfold convert_row, bind.
    rewrite getitem_of_nat, Hid, getitem_of_nat, Him. reflexivity.
  - intros batch up acc i d id img e d' Hid Him Hs.
    unfold convert_row, bind, Image_save.
    rewrite getitem_of_nat, Hid, getitem_of_nat, Him, Hs. reflexivity.
  - intros batch up acc i d id img Hid Him Hs Hc.
    unfold convert_row, bind, Image_save.
    rewrite getitem_of_nat, Hid, getitem_of_nat, Him, Hs.
    rewrite getitem_of_nat, Hid, getitem_of_nat, Hc. reflexivity.
  - intros batch batch_size up i acc d d1 e d2 Hi Hloop Hrow.
    unfold preprocess. apply bind_raise. unfold range in *.
    rewrite Nat2Z.id in Hloop.
    replace (Z.to_nat batch_size) with (i + S (Z.to_nat batch_size - S i))%nat by lia.
    rewrite seq_app, fmap_app. cbn [seq fmap list_fmap].
    exact (for_in_raise _ _ _ _ _ _ _ _ _ _ Hloop Hrow).
  - intros gc conv l h d Hl Hf. unfold add_speaker, bind, dict_get.
    rewrite Hl, Hf. reflexivity.
  - intros gc conv l h d f Hl Hf Hv. unfold add_speaker, bind, dict_get.
    rewrite Hl, Hf, Hl, Hv. reflexivity.
  - intros header before after l gc h h1 h2 conv e Hloop Hl.
    unfold patched_fn. apply bind_raise.
    exact (for_in_raise _ _ _ _ _ _ _ _ _ _ Hloop Hl).
Qed.

End NoHandlers.

Lemma exceptions_propagate_witness :
  inference (fun _ _ _ => call1 "tokenizer_image_token")
    (fun _ _ => call1 "unsqueeze") (fun _ => call1 "cuda")
    (fun _ _ _ => call1 "process_images") (fun _ _ _ => call1 "to")
    (fun _ _ _ _ _ => out_of_memory "generate")
    (fun _ _ _ => decode_one "batch_decode")
    (fun _ : string => "config") (fun _ : string => "cuda:0")
    (fun _ : string => (640, 480))
    "model" "tokenizer" "image_processor" "image" "prompt" generation_config [] =
  (Raise (LibraryError "OutOfMemoryError"),
   ["tokenizer_image_token"; "unsqueeze"; "cuda"; "process_images"; "to";
    "generate"]).
Proof.
  destruct (exceptions_propagate get_refused open_unidentified
              (fun _ _ _ => call1 "tokenizer_image_token")
              (fun _ _ => call1 "unsqueeze") (fun _ => call1 "cuda")
              (fun _ _ _ => call1 "process_images") (fun _ _ _ => call1 "to")
              (fun _ _ _ _ _ => out_of_memory "generate")
              (fun _ _ _ => decode_one "batch_decode")
              (fun _ : string => "config") (fun _ : string => "cuda:0")
              (fun _ : string => (640, 480))
              (fun _ : list string => call1 "exists" ;; ret true)%py
              (fun (_ : list string) (_ _ : bool) => call1 "mkdir" ;; ret tt)%py
              cannot_encode
              "model" "tokenizer" "image_processor" "image" "prompt"
              generation_config)
    as (_ & _ & _ & _ & _ & _ & _ & Hgenerate & _).
  eapply Hgenerate; reflexivity.
Defined.

End PropagationFacts.

(** ** Merging, saving and sharing *)

Module SaveFacts.
Import Py FineTuning Examples PropagationFacts.

Section NameForModel.
Context {World Model Tokenizer ImageProcessor : Type}.
Variable trainer_train : Model -> Tokenizer -> M World unit.
Variable notebook_login : M World unit.
Variable PeftModel_from_pretrained : @BaseArg Model -> string -> M World Model.
Variable merge_and_unload : Model -> M World Model.
Variable bfloat16 : Model -> M World Model.
Variable save_pretrained :
  @Artifact Model Tokenizer ImageProcessor -> string -> string -> bool ->
  M World unit.

(** [PeftModel.from_pretrained(model, model_id)] takes the base model as
    its first argument, as [get_peft_model(model, lora_config)] does in
    the cell that sets the adapter up, and goes through the modules of
    that model: handed a name, it raises. *)
Hypothesis from_pretrained_takes_model :
  forall (name adapter : string) (w : World),
    exists (e : exn) (w' : World),
      PeftModel_from_pretrained (BaseName name) adapter w = (Raise e, w').

(** C5.  The cells as written do not get to the merge: after the training
    loop and the login, [PeftModel.from_pretrained] is handed
    [model_path], the name of the checkpoint, where the library takes the
    model; the call raises, and the run ends with that exception in the
    state the call left, before [merge_and_unload], [bfloat16] and any of
    the three [save_pretrained] calls, whatever the [push_to_hub] flag. *)
Theorem train_merge_save_stops_at_load (model : Model) (tokenizer : Tokenizer)
    (image_processor : ImageProcessor) (flag : bool) (w w1 w2 : World) :
  trainer_train model tokenizer w = (Ok tt, w1) ->
  notebook_login w1 = (Ok tt, w2) ->
  exists (e : exn) (w3 : World),
    PeftModel_from_pretrained (BaseName model_path) output_dir w2 = (Raise e, w3) /\
    merge_cell PeftModel_from_pretrained merge_and_unload bfloat16 w2
      = (Raise e, w3) /\
    train_merge_save trainer_train notebook_login PeftModel_from_pretrained
      merge_and_unload bfloat16 save_pretrained
      model tokenizer image_processor flag w = (Raise e, w3).
Proof.
  intros Htrain Hlogin.
  destruct (from_pretrained_takes_model model_path output_dir w2) as (e & w3 & Hload).
  exists e, w3. split; [exact Hload|].
  assert (Hmerge : merge_cell PeftModel_from_pretrained merge_and_unload bfloat16 w2
                     = (Raise e, w3))
    by exact (bind_raise _ _ _ _ _ Hload).
  split; [exact Hmerge|].
  unfold train_merge_save.
  rewrite (bind_ok _ _ _ _ _ Htrain), (bind_ok _ _ _ _ _ Hlogin).
  exact (bind_raise _ _ _ _ _ Hmerge).
Qed.

End NameForModel.

(** On a disk and a hub that record what is saved and pushed, nothing has
    been saved or pushed when the run ends. *)
Lemma train_merge_save_stops_at_load_witness :
  exists (e : exn) (w3 : Shelf),
    shelf_from_pretrained (BaseName model_path) output_dir
      {| on_disk := []; on_hub := [] |} = (Raise e, w3) /\
    merge_cell shelf_from_pretrained
      (fun m => shelf_call ("merged(" +:+ m +:+ ")"))
      (fun m => shelf_call ("bf16(" +:+ m +:+ ")"))
      {| on_disk := []; on_hub := [] |} = (Raise e, w3) /\
    train_merge_save (fun _ _ => shelf_unit) shelf_unit shelf_from_pretrained
      (fun m => shelf_call ("merged(" +:+ m +:+ ")"))
      (fun m => shelf_call ("bf16(" +:+ m +:+ ")"))
      shelf_save "model" "tokenizer" "image_processor" push_to_hub
      {| on_disk := []; on_hub := [] |} = (Raise e, w3).
Proof.
  refine (train_merge_save_stops_at_load (fun _ _ => shelf_unit) shelf_unit
            shelf_from_pretrained
            (fun m => shelf_call ("merged(" +:+ m +:+ ")"))
            (fun m => shelf_call ("bf16(" +:+ m +:+ ")"))
            shelf_save _
            "model" "tokenizer" "image_processor" push_to_hub
            {| on_disk := []; on_hub := [] |}
            {| on_disk := []; on_hub := [] |}
            {| on_disk := []; on_hub := [] |} _ _).
  - intros name adapter w. eexists _, _. reflexivity.
  - reflexivity.
  - reflexivity.
Defined.

End SaveFacts.


(** * Further properties of the code *)

(** ** More on strings *)

Module StrMore.
Import Py.

Lemma prefix_app (p x : string) : String.prefix p (p +:+ x) = true.
Proof.
  induction p as [|c p IH]; [destruct x; reflexivity|].
  rewrite StrFacts.app_cons. cbn [String.prefix].
  destruct (ascii_dec c c); [exact IH | congruence].
Qed.

Lemma app_inv_tail_str (a b c : string) : a +:+ c = b +:+ c -> a = b.
Proof.
  revert b. induction a as [|x a IH]; intros b H.
  - destruct b as [|y b]; [reflexivity|]. exfalso.
    apply (f_equal String.length) in H.
    rewrite StrFacts.app_cons in H. cbn [String.length] in H.
    rewrite !StrFacts.length_app in H. cbn [String.length] in H. lia.
  - destruct b as [|y b].
    + exfalso. apply (f_equal String.length) in H.
      rewrite StrFacts.app_cons in H. cbn [String.length] in H.
      rewrite !StrFacts.length_app in H. cbn [String.length] in H. lia.
    + rewrite !StrFacts.app_cons in H. injection H as -> H.
      f_equal. exact (IH _ H).
Qed.

Lemma app_inv_head_str (a b c : string) : a +:+ b = a +:+ c -> b = c.
Proof.
  induction a as [|x a IH]; [exact id|].
  rewrite !StrFacts.app_cons. intros [= H]. exact (IH H).
Qed.

Lemma contains_slash_cons (c : ascii) (s : string) :
  contains "/" (String c s) = false <->
  c <> "/"%char /\ contains "/" s = false.
Proof.
  cbn [contains String.prefix].
  destruct (ascii_dec "/" c) as [<-|Hne]; cbn.
  - split; [destruct s; discriminate | intros [H _]; congruence].
  - split; [intros H; split; [congruence | exact H] | intros [_ H]; exact H].
Qed.

Lemma contains_slash_app (a b : string) :
  contains "/" a = false -> contains "/" b = false ->
  contains "/" (a +:+ b) = false.
Proof.
  induction a as [|c a IH]; intros Ha Hb; [exact Hb|].
  rewrite StrFacts.app_cons. apply contains_slash_cons in Ha as [Hc Ha].
  apply contains_slash_cons. split; [exact Hc | exact (IH Ha Hb)].
Qed.

(** The decimal digits of a number hold no [/]. *)
Lemma pretty_N_go_no_slash (x : N) :
  forall s : string,
    contains "/" s = false -> contains "/" (pretty_N_go x s) = false.
Proof.
  induction (N.lt_wf_0 x) as [x _ IH]; intros s Hs.
  destruct (decide (x = 0)%N) as [->|Hx]; [now rewrite pretty_N_go_0|].
  rewrite pretty_N_go_step by lia. apply IH; [apply N.div_lt; lia|].
  apply contains_slash_cons. split; [|exact Hs].
  unfold pretty_N_char. repeat case_match; discriminate.
Qed.

Lemma pretty_Z_no_slash (z : Z) : contains "/" (pretty z) = false.
Proof.
  assert (Hpos : forall p : positive, contains "/" (pretty p) = false).
  { intros p. unfold pretty, pretty_positive, pretty, pretty_N.
    case_decide; [reflexivity|]. now apply pretty_N_go_no_slash. }
  destruct z as [|p|p]; [reflexivity | apply Hpos |].
  unfold pretty, pretty_Z. apply contains_slash_app; [reflexivity | apply Hpos].
Qed.

End StrMore.

(** ** The dataset converter: bounds, failures and what is written *)

Module DatasetMore.
Import Py FineTuning Examples DatasetFacts PropagationFacts StrMore.


Section Rows.
Context {Image : Type}.
Variable save_error : list (string * Image) -> Image -> string ->
    option (exn * list (string * Image)).
Variable batch : @Batch Image.
Variable user_prompt : string.

Let records : list pyval :=
  zip_with (record_of user_prompt) (imgid batch) (detailed_caption batch).
Let files : list (string * Image) :=
  zip_with file_of (imgid batch) (image batch).

(** The loop over rows [a, a + k) that all exist and whose files can all
    be written; nothing is asked of the other rows. *)
Lemma loop_run_upto (k : nat) :
  forall (a : nat) (acc : list pyval) (d : list (string * Image)),
    (forall j d0 id img,
       (a <= j < a + k)%nat ->
       imgid batch !! j = Some id -> image batch !! j = Some img ->
       save_error d0 img ("llava_dataset/images/" +:+ format_ident id +:+ ".jpg")
         = None) ->
    (a + k <= length (imgid batch))%nat ->
    (a + k <= length (image batch))%nat ->
    (a + k <= length (detailed_caption batch))%nat ->
    for_in (Z.of_nat <$> seq a k) acc
           (convert_row save_error batch user_prompt) d =
    (Ok (acc ++ take k (drop a records)), d ++ take k (drop a files)).
Proof.
  induction k as [|k IH]; intros a acc d Hs Hk Hi Hc.
  - cbn. rewrite !take_0, !app_nil_r. done.
  - cbn [seq fmap list_fmap for_in]. unfold bind.
    destruct (lookup_lt_is_Some_2 (imgid batch) a) as [id Hid]; [lia|].
    destruct (lookup_lt_is_Some_2 (image batch) a) as [img Him]; [lia|].
    destruct (lookup_lt_is_Some_2 (detailed_caption batch) a) as [c Hcap]; [lia|].
    rewrite (convert_row_run save_error batch user_prompt acc a d id img c
               Hid Him Hcap (Hs a d id img ltac:(lia) Hid Him)).
    rewrite IH; try lia.
    + assert (Hr : records !! a = Some (record_of user_prompt id c))
        by (unfold records; rewrite lookup_zip_with, Hid; cbn; now rewrite Hcap).
      assert (Hf : files !! a = Some (file_of id img))
        by (unfold files; rewrite lookup_zip_with, Hid; cbn; now rewrite Him).
      rewrite (drop_S _ _ _ Hr), (drop_S _ _ _ Hf). cbn [take].
      rewrite <- !app_assoc. done.
    + intros j d0 id' img' Hj. apply Hs. lia.
Qed.

(** [preprocess] converts the first [batch_size] rows and nothing else: on
    a batch that holds at least [batch_size] rows it returns their records
    and writes their files, in row order, and the rows after them are
    dropped without an error; a [batch_size] of zero or less converts
    nothing. *)
Theorem preprocess_converts_first_rows (batch_size : Z)
    (d : list (string * Image)) :
  (forall d0 img path, save_error d0 img path = None) ->
  length (image batch) = length (imgid batch) ->
  length (detailed_caption batch) = length (imgid batch) ->
  batch_size <= Z.of_nat (length (imgid batch)) ->
  preprocess save_error batch batch_size user_prompt d =
    (Ok {| imgid := imgid batch; image := image batch;
           detailed_caption := detailed_caption batch;
           json := take (Z.to_nat batch_size) records |},
     d ++ take (Z.to_nat batch_size) files)
  /\ length (take (Z.to_nat batch_size) records) = Z.to_nat batch_size
  /\ length (take (Z.to_nat batch_size) files) = Z.to_nat batch_size
  /\ (batch_size <= 0 ->
      preprocess save_error batch batch_size user_prompt d =
        (Ok {| imgid := imgid batch; image := image batch;
               detailed_caption := detailed_caption batch; json := [] |}, d)).
Proof.
  intros Hs Hi Hc Hle.
  assert (Hrun : preprocess save_error batch batch_size user_prompt d =
    (Ok {| imgid := imgid batch; image := image batch;
           detailed_caption := detailed_caption batch;
           json := take (Z.to_nat batch_size) records |},
     d ++ take (Z.to_nat batch_size) files)).
  { unfold preprocess, bind, range.
    rewrite (loop_run_upto _ 0 [] d) by (lia || (intros; apply Hs)).
    reflexivity. }
  split; [exact Hrun|].
  split; [|split].
  - rewrite length_take. unfold records. rewrite length_zip_with. lia.
  - rewrite length_take. unfold files. rewrite length_zip_with. lia.
  - intros Hneg. rewrite Hrun.
    replace (Z.to_nat batch_size) with 0%nat by lia.
    rewrite !take_0, app_nil_r. reflexivity.
Qed.

(** A save that fails stops the conversion at its row: the rows before
    it have been saved by then, the exception of the image library is
    what [preprocess] raises, no record is returned and no later row is
    tried; the disk is as the failed save left it. *)
Theorem preprocess_stops_at_failed_save (batch_size : Z) (i : nat)
    (id : ident) (img : Image) (e : exn) (d d' : list (string * Image)) :
  Z.of_nat i < batch_size ->
  (i <= length (detailed_caption batch))%nat ->
  imgid batch !! i = Some id ->
  image batch !! i = Some img ->
  (forall j d0 id' img',
     (j < i)%nat -> imgid batch !! j = Some id' -> image batch !! j = Some img' ->
     save_error d0 img' ("llava_dataset/images/" +:+ format_ident id' +:+ ".jpg")
       = None) ->
  save_error (d ++ take i files) img
    ("llava_dataset/images/" +:+ format_ident id +:+ ".jpg") = Some (e, d') ->
  preprocess save_error batch batch_size user_prompt d = (Raise e, d').
Proof.
  intros Hi Hlc Hid Him Hok Hfail.
  assert (Hlt : (i < length (imgid batch))%nat) by (eapply lookup_lt_Some; eauto).
  assert (Hli : (i < length (image batch))%nat) by (eapply lookup_lt_Some; eauto).
  unfold preprocess. apply bind_raise. unfold range.
  replace (Z.to_nat batch_size) with (i + S (Z.to_nat batch_size - S i))%nat by lia.
  rewrite seq_app, fmap_app. cbn [seq fmap list_fmap Nat.add].
  eapply for_in_raise.
  - apply (loop_run_upto i 0 [] d); try lia.
    intros j d0 id' img' Hj. apply Hok. lia.
  - change (drop 0 files) with files.
    unfold convert_row, bind, Image_save.
    rewrite getitem_of_nat, Hid, getitem_of_nat, Him, Hfail. reflexivity.
Qed.

(** One turn of the loop with a save that goes through, whether it
    returns or a lookup fails, leaves the disk as it was or with the file
    of its row appended. *)
Lemma convert_row_disk (acc : list pyval) (i : nat) (d : list (string * Image)) :
  (forall d0 img path, save_error d0 img path = None) ->
  (convert_row save_error batch user_prompt acc (Z.of_nat i) d).2 = d \/
  exists f, files !! i = Some f /\
    (convert_row save_error batch user_prompt acc (Z.of_nat i) d).2 = d ++ [f].
Proof.
  intros Hs. unfold convert_row, bind, Image_save, ret. rewrite getitem_of_nat.
  destruct (imgid batch !! i) as [id|] eqn:Hid; [|left; reflexivity].
  rewrite getitem_of_nat.
  destruct (image batch !! i) as [img|] eqn:Him; [|left; reflexivity].
  rewrite Hs.
  right. exists (file_of id img). split.
  - unfold files. rewrite lookup_zip_with, Hid. cbn. now rewrite Him.
  - rewrite getitem_of_nat, Hid, getitem_of_nat.
    destruct (detailed_caption batch !! i); reflexivity.
Qed.

Lemma loop_disk (k : nat) :
  forall (a : nat) (acc : list pyval) (d : list (string * Image)),
    (forall d0 img path, save_error d0 img path = None) ->
    exists m, (m <= k)%nat /\
      (for_in (Z.of_nat <$> seq a k) acc
              (convert_row save_error batch user_prompt) d).2 =
      d ++ take m (drop a files).
Proof.
  induction k as [|k IH]; intros a acc d Hs.
  - exists 0%nat. split; [lia|]. cbn. now rewrite app_nil_r.
  - cbn [seq fmap list_fmap for_in]. unfold bind.
    pose proof (convert_row_disk acc a d Hs) as Hdisk.
    destruct (convert_row save_error batch user_prompt acc (Z.of_nat a) d)
      as [[acc1|e] d1] eqn:Hrow; cbn [snd] in Hdisk.
    + apply convert_row_ok in Hrow
        as (id & img & caption & Hid & Him & _ & _ & ->).
      assert (Hf : files !! a = Some (file_of id img))
        by (unfold files; rewrite lookup_zip_with, Hid; cbn; now rewrite Him).
      destruct (IH (S a) acc1 (d ++ [file_of id img]) Hs) as (m & Hm & ->).
      exists (S m). split; [lia|].
      rewrite (drop_S _ _ _ Hf). cbn [take]. now rewrite <- app_assoc.
    + destruct Hdisk as [-> | (f & Hf & ->)].
      * exists 0%nat. split; [lia|]. cbn. now rewrite app_nil_r.
      * exists 1%nat. split; [lia|].
        rewrite (drop_S _ _ _ Hf). cbn [take]. now rewrite take_0.
Qed.

End Rows.


Lemma file_name_eq {Image : Type} (a b : ident) (img img' : Image) :
  (file_of a img).1 = (file_of b img').1 <-> format_ident a = format_ident b.
Proof.
  unfold file_of. cbn [fst]. split.
  - intros H. apply String.app_inj in H. exact (app_inv_tail_str _ _ _ H).
  - now intros ->.
Qed.

Lemma file_names_NoDup {Image : Type} (ids : list ident) :
  forall imgs : list Image,
    NoDup (format_ident <$> ids) -> NoDup (zip_with file_of ids imgs).*1.
Proof.
  induction ids as [|id ids IH]; intros imgs Hnd; [constructor|].
  destruct imgs as [|img imgs]; [constructor|].
  cbn [fmap list_fmap] in Hnd. apply NoDup_cons in Hnd as [Hnot Hnd].
  cbn [zip_with fmap list_fmap]. apply NoDup_cons. split; [|exact (IH _ Hnd)].
  intros Hin. apply Hnot.
  apply list_elem_of_fmap in Hin as ([path img'] & Hp & Hin). cbn [fst] in Hp.
  apply elem_of_lookup_zip_with in Hin as (i & id' & img'' & Hf & Hid' & _).
  apply list_elem_of_fmap. exists id'. split.
  - apply (file_name_eq id id' img img''). rewrite <- Hf. exact Hp.
  - eapply list_elem_of_lookup_2. exact Hid'.
Qed.

(** Rows with different integer identifiers are written to different
    files.  On a batch whose identifier column holds integers and names
    none twice, with saves that go through, every file that [preprocess]
    writes, whether it returns or a lookup fails, lies in
    [llava_dataset/images/] itself, under a name without a [/], and no two
    of these names are the same. *)
Theorem preprocess_writes_distinct_files {Image : Type}
    (save_error : list (string * Image) -> Image -> string ->
                  option (exn * list (string * Image)))
    (batch : @Batch Image) (batch_size : Z) (user_prompt : string)
    (d : list (string * Image)) (zs : list Z) :
  (forall d0 img path, save_error d0 img path = None) ->
  imgid batch = IdInt <$> zs ->
  NoDup zs ->
  exists written : list (string * Image),
    (preprocess save_error batch batch_size user_prompt d).2 = d ++ written /\
    NoDup written.*1 /\
    Forall (fun f : string * Image =>
              exists name : string,
                f.1 = "llava_dataset/images/" +:+ name /\
                contains "/" name = false)
           written.
Proof.
  intros Hs Hz Hnd.
  destruct (loop_disk save_error batch user_prompt (Z.to_nat batch_size) 0 [] d Hs)
    as (m & _ & Hd).
  exists (take m (zip_with file_of (imgid batch) (image batch))).
  split; [|split].
  - unfold preprocess, bind, range.
    destruct (for_in _ [] _ d) as [[acc|e] d1]; exact Hd.
  - rewrite fmap_take. eapply sublist_NoDup; [|apply sublist_take].
    apply file_names_NoDup. rewrite Hz, <- list_fmap_compose.
    apply NoDup_fmap_2_strong; [|exact Hnd].
    intros x y _ _ H. cbn in H. exact (pretty_Z_inj _ _ H).
  - apply Forall_take, Forall_forall. intros f Hf.
    apply elem_of_lookup_zip_with in Hf as (i & id & img & -> & Hid & _).
    rewrite Hz, list_lookup_fmap in Hid.
    destruct (zs !! i) as [z|]; [|discriminate]. injection Hid as <-.
    exists (pretty z +:+ ".jpg"). split; [reflexivity|].
    apply contains_slash_app; [apply pretty_Z_no_slash | reflexivity].
Qed.

(** *** The cell: [preprocess] mapped over the dataset in slices of 1000 *)

Section Mapped.
Context {Image : Type}.
Variable save_error : list (string * Image) -> Image -> string ->
    option (exn * list (string * Image)).
Hypothesis save_ok : forall d0 img path, save_error d0 img path = None.

Lemma preprocess_exact_rows (b : @Batch Image) (d : list (string * Image)) :
  length (image b) = length (imgid b) ->
  length (detailed_caption b) = length (imgid b) ->
  length (imgid b) = 1000%nat ->
  preprocess save_error b batch_size user_prompt d =
    (Ok {| imgid := imgid b; image := image b;
           detailed_caption := detailed_caption b;
           json := zip_with (record_of user_prompt) (imgid b) (detailed_caption b) |},
     d ++ zip_with file_of (imgid b) (image b)).
Proof.
  intros Hi Hc HL. unfold preprocess, bind, range.
  change (Z.to_nat batch_size) with 1000%nat.
  rewrite (loop_run save_error b user_prompt 1000 0 [] d save_ok) by lia.
  rewrite !drop_0.
  rewrite (take_ge (zip_with (record_of user_prompt) _ _))
    by (rewrite length_zip_with; lia).
  rewrite (take_ge (zip_with file_of _ _)) by (rewrite length_zip_with; lia).
  reflexivity.
Qed.

(** The loop of [ds.map] over the slices of a dataset of [k] full slices
    and [r] rows more. *)
Lemma slices_loop (k : nat) :
  forall (fuel r : nat) (b : @Batch Image) (out : list pyval)
         (d : list (string * Image)),
    length (image b) = length (imgid b) ->
    length (detailed_caption b) = length (imgid b) ->
    length (imgid b) = (k * 1000 + r)%nat -> (r < 1000)%nat ->
    (length (imgid b) <= fuel)%nat ->
    for_in (slices fuel 1000 b) out
      (fun out b0 =>
         (b' <- preprocess save_error b0 batch_size user_prompt ;;
          ret (out ++ json b'))%py) d =
    (if decide (r = 0%nat)
     then Ok (out ++ zip_with (record_of user_prompt) (imgid b) (detailed_caption b))
     else Raise IndexError,
     d ++ zip_with file_of (imgid b) (image b)).
Proof.
  induction k as [|k IH]; intros fuel r b out d Hi Hc HL Hr Hfuel.
  - destruct (decide (r = 0%nat)) as [->|Hne].
    + apply nil_length_inv in HL. 
      assert (Hs : slices fuel 1000 b = [])
        by (destruct fuel; cbn [slices]; [|rewrite HL]; reflexivity).
      rewrite Hs, HL. cbn. rewrite !app_nil_r. reflexivity.
    + destruct fuel as [|fuel]; [lia|]. cbn [slices].
      destruct (imgid b) as [|id ids] eqn:Hids; [cbn in HL; lia|].
      rewrite <- Hids in *. rewrite !take_ge by lia.
      cbn [for_in]. unfold bind at 1. unfold bind at 1.
      unfold preprocess, bind at 1, range. cbn [imgid image detailed_caption].
      change (Z.to_nat batch_size) with 1000%nat.
      rewrite (loop_past_end save_error
                 {| imgid := imgid b; image := image b;
                    detailed_caption := detailed_caption b; json := [] |}
                 user_prompt 1000 d save_ok Hi Hc) by (cbn [imgid]; lia).
      reflexivity.
  - destruct fuel as [|fuel]; [lia|]. cbn [slices].
    destruct (imgid b) as [|id ids] eqn:Hids; [cbn in HL; lia|].
    rewrite <- Hids in *.
    cbn [for_in]. unfold bind at 1. unfold bind at 1.
    rewrite preprocess_exact_rows
      by (cbn [imgid image detailed_caption]; rewrite !length_take; lia).
    cbn [imgid image detailed_caption json ret].
    rewrite (IH fuel r) by (cbn [imgid image detailed_caption];
                            rewrite ?length_drop; lia).
    cbn [imgid image detailed_caption].
    rewrite <- !zip_with_take, <- !zip_with_drop.
    destruct (decide (r = 0%nat)); rewrite <- !app_assoc, !take_drop; reflexivity.
Qed.

(** The conversion cell on a dataset whose size is a multiple of 1000, the
    batch size: it goes through all slices, and returns one record and
    writes one file per row of the dataset, in row order. *)
Theorem convert_dataset_whole_slices (ds : @Batch Image) (k : nat)
    (d : list (string * Image)) :
  length (image ds) = length (imgid ds) ->
  length (detailed_caption ds) = length (imgid ds) ->
  length (imgid ds) = (k * 1000)%nat ->
  convert_dataset save_error ds d =
    (Ok (zip_with (record_of user_prompt) (imgid ds) (detailed_caption ds)),
     d ++ zip_with file_of (imgid ds) (image ds)).
Proof.
  intros Hi Hc HL. unfold convert_dataset, ds_map.
  change (Z.to_nat batch_size) with 1000%nat.
  rewrite (slices_loop k _ 0 ds [] d Hi Hc) by lia. reflexivity.
Qed.

(** The conversion cell on a dataset whose size is no multiple of 1000: it
    converts the full slices, writes the files of the last, shorter slice
    too, and then stops with [IndexError] without returning any record. *)
Theorem convert_dataset_last_slice_raises (ds : @Batch Image) (k r : nat)
    (d : list (string * Image)) :
  length (image ds) = length (imgid ds) ->
  length (detailed_caption ds) = length (imgid ds) ->
  length (imgid ds) = (k * 1000 + r)%nat ->
  (0 < r < 1000)%nat ->
  convert_dataset save_error ds d =
    (Raise IndexError, d ++ zip_with file_of (imgid ds) (image ds)).
Proof.
  intros Hi Hc HL Hr. unfold convert_dataset, ds_map.
  change (Z.to_nat batch_size) with 1000%nat.
  rewrite (slices_loop k _ r ds [] d Hi Hc) by lia.
  destruct (decide (r = 0%nat)); [lia | reflexivity].
Qed.

End Mapped.

(** *** Runs of the converter *)

Lemma preprocess_converts_first_rows_witness :
  preprocess writes_all last_slice 1 "Ne var?" [] =
    (Ok {| imgid := imgid last_slice; image := image last_slice;
           detailed_caption := detailed_caption last_slice;
           json := [record_of "Ne var?" (IdInt 8000) "Bir köpek koşuyor."] |},
     [("llava_dataset/images/8000.jpg", "pixels of 8000")]).
Proof.
  refine (proj1 (preprocess_converts_first_rows writes_all last_slice "Ne var?"
                   1 [] _ _ _ _)).
  - intros d0 img path. reflexivity.
  - reflexivity.
  - reflexivity.
  - cbn. lia.
Defined.

Lemma preprocess_stops_at_failed_save_witness :
  preprocess fails_on_second last_slice 2 "Ne var?" [] =
    (Raise (LibraryError "OSError"),
     [("llava_dataset/images/8000.jpg", "pixels of 8000");
      ("llava_dataset/images/8001.jpg", "")]).
Proof.
  refine (preprocess_stops_at_failed_save fails_on_second last_slice "Ne var?"
            2 1 (IdInt 8001) "pixels of 8001" (LibraryError "OSError") [] _
            _ _ _ _ _ _).
  - lia.
  - cbn. lia.
  - reflexivity.
  - reflexivity.
  - intros j d0 id' img' Hj Hid Him.
    destruct j as [|j]; [|lia].
    cbn in Him. injection Him as <-. reflexivity.
  - reflexivity.
Defined.

Lemma preprocess_writes_distinct_files_witness :
  exists written : list (string * string),
    (preprocess writes_all last_slice 2 "Ne var?" []).2 = [] ++ written /\
    NoDup written.*1 /\
    Forall (fun f : string * string =>
              exists name : string,
                f.1 = "llava_dataset/images/" +:+ name /\
                contains "/" name = false)
           written.
Proof.
  refine (preprocess_writes_distinct_files writes_all last_slice 2
            "Ne var?" [] [8000; 8001] _ _ _).
  - intros d0 img path. reflexivity.
  - reflexivity.
  - apply NoDup_cons. split; [|apply NoDup_singleton].
    intros H. apply list_elem_of_singleton in H. discriminate.
Defined.

Lemma convert_dataset_whole_slices_witness :
  convert_dataset writes_all (rows_from 0 2000) [] =
    (Ok (zip_with (record_of user_prompt) (imgid (rows_from 0 2000))
           (detailed_caption (rows_from 0 2000))),
     [] ++ zip_with file_of (imgid (rows_from 0 2000)) (image (rows_from 0 2000))).
Proof.
  refine (convert_dataset_whole_slices writes_all _ (rows_from 0 2000) 2 [] _ _ _).
  - intros d0 img path. reflexivity.
  - vm_compute. reflexivity.
  - vm_compute. reflexivity.
  - vm_compute. reflexivity.
Defined.

Lemma convert_dataset_last_slice_raises_witness :
  convert_dataset writes_all (rows_from 0 1002) [] =
    (Raise IndexError,
     [] ++ zip_with file_of (imgid (rows_from 0 1002)) (image (rows_from 0 1002))).
Proof.
  refine (convert_dataset_last_slice_raises writes_all _ (rows_from 0 1002) 1 2 []
            _ _ _ _).
  - intros d0 img path. reflexivity.
  - vm_compute. reflexivity.
  - vm_compute. reflexivity.
  - vm_compute. reflexivity.
  - lia.
Defined.

End DatasetMore.

(** ** The dataset directory: when it is made and when it cannot be *)

Module PathMore.
Import Py FineTuning Examples PathFacts.



End PathMore.

(** ** The patched function on any list of turns *)

Module SpeakerMore.
Import Py Inference FineTuning Examples SpeakerFacts DatasetFacts PropagationFacts.

Lemma signalled_times_S (from_str : string) (n : nat) (value : string) :
  signalled_times from_str n (EOS_TOKEN +:+ role_header from_str +:+ value) =
  signalled_times from_str (S n) value.
Proof. unfold signalled_times. now rewrite Nat.iter_succ_r. Qed.

Lemma after_loop_lookup (source : list nat) (h : Heap) (l : nat) :
  after_loop source h !! l =
  turn_after (count_occ Nat.eq_dec source l) <$> h !! l.
Proof.
  unfold after_loop. rewrite map_lookup_imap.
  destruct (h !! l); reflexivity.
Qed.

Lemma turn_after_0 (d : gmap string string) : turn_after 0 d = d.
Proof.
  unfold turn_after.
  destruct (d !! "from") as [f|]; [|reflexivity].
  destruct (d !! "value") as [v|] eqn:Hv; [|reflexivity].
  cbn. now apply insert_id.
Qed.

Lemma after_loop_nil (h : Heap) : after_loop [] h = h.
Proof.
  apply map_eq. intros l. rewrite after_loop_lookup. cbn [count_occ].
  destruct (h !! l); cbn; [|reflexivity]. now rewrite turn_after_0.
Qed.

Lemma after_loop_cons (l : nat) (source : list nat) (h : Heap)
    (d : gmap string string) (turn : string * string) :
  h !! l = Some d -> d !! "from" = Some turn.1 -> d !! "value" = Some turn.2 ->
  after_loop source (<[l := <["value" := signalled turn]> d]> h) =
  after_loop (l :: source) h.
Proof.
  intros Hl Hf Hv. apply map_eq. intros l'. rewrite !after_loop_lookup.
  destruct (decide (l' = l)) as [->|Hne].
  - rewrite lookup_insert_eq, Hl, count_occ_cons_eq by reflexivity.
    cbn [fmap option_fmap option_map]. f_equal. unfold turn_after.
    rewrite lookup_insert_ne by discriminate. rewrite lookup_insert_eq, Hf, Hv.
    rewrite insert_insert_eq. unfold signalled.
    now rewrite signalled_times_S.
  - rewrite lookup_insert_ne by congruence.
    now rewrite count_occ_cons_neq by congruence.
Qed.

Lemma turn_after_other (n : nat) (d : gmap string string) (key : string) :
  key <> "value" -> turn_after n d !! key = d !! key.
Proof.
  intros Hk. unfold turn_after.
  destruct (d !! "from"); [|reflexivity].
  destruct (d !! "value"); [|reflexivity].
  now rewrite lookup_insert_ne by congruence.
Qed.

Lemma turn_after_value (n : nat) (d : gmap string string)
    (from_str value : string) :
  d !! "from" = Some from_str -> d !! "value" = Some value ->
  turn_after n d !! "value" = Some (signalled_times from_str n value).
Proof.
  intros Hf Hv. unfold turn_after. rewrite Hf, Hv. apply lookup_insert_eq.
Qed.

Lemma turn_after_missing (n : nat) (d : gmap string string) :
  d !! "from" = None \/ d !! "value" = None -> turn_after n d = d.
Proof.
  unfold turn_after. intros [-> | ->]; [reflexivity|].
  destruct (d !! "from"); reflexivity.
Qed.

Lemma is_turn_insert (h : Heap) (l l' : nat) (d : gmap string string)
    (value : string) :
  h !! l = Some d -> is_turn h l' -> is_turn (<[l := <["value" := value]> d]> h) l'.
Proof.
  intros Hl (d' & Hl' & Hf & Hv). destruct (decide (l' = l)) as [->|Hne].
  - exists (<["value" := value]> d). rewrite lookup_insert_eq.
    rewrite Hl in Hl'. injection Hl' as <-.
    split; [reflexivity|]. split.
    + now rewrite lookup_insert_ne by discriminate.
    + rewrite lookup_insert_eq. eauto.
  - exists d'. now rewrite lookup_insert_ne by congruence.
Qed.

(** The loop over any list of references to turns, repeated or not. *)
Lemma loop_any_source (get_conversation : bool) (source : list nat) :
  forall (h : Heap) (conversation : string),
    Forall (is_turn h) source ->
    exists conversation',
      for_in source conversation (add_speaker get_conversation) h =
        (Ok conversation', after_loop source h) /\
      (get_conversation = false -> conversation' = conversation).
Proof.
  induction source as [|l source IH]; intros h conversation HF.
  - exists conversation. rewrite after_loop_nil. done.
  - apply Forall_cons in HF as [(d & Hl & [f Hf] & [v Hv]) HF].
    set (h1 := <[l := <["value" := signalled (f, v)]> d]> h).
    assert (HF1 : Forall (is_turn h1) source).
    { eapply Forall_impl; [exact HF|]. intros l' H'.
      now apply is_turn_insert. }
    destruct (IH h1 (if get_conversation then conversation +:+ signalled (f, v)
                     else conversation) HF1) as (c' & Hrun & Hc').
    exists c'. split.
    + cbn [for_in]. unfold bind.
      rewrite (add_speaker_run _ _ l (f, v) h d Hl Hf Hv). fold h1.
      rewrite Hrun. unfold h1.
      now rewrite (after_loop_cons l source h d (f, v) Hl Hf Hv).
    + intros ->. now apply Hc'.
Qed.

(** On any list of references to turn dictionaries, listed once or more
    often, [patched_fn] returns, and the store it leaves is the one it
    found with one change: the [value] of a listed dictionary has the
    end-of-sequence token and the role header in front of it once for
    every time the list names the dictionary.  Dictionaries that are not
    listed, and all other keys, are as before.  With [get_conversation]
    false the result is the header and the token. *)
Theorem patched_fn_rewrites_listed_turns (header : string) (source : list nat)
    (get_conversation : bool) (h : Heap) :
  Forall (is_turn h) source ->
  exists conversation : string,
    patched_fn header source get_conversation h =
      (Ok conversation, after_loop source h) /\
    (get_conversation = false -> conversation = header +:+ "<|eot_id|>") /\
    dom (after_loop source h) = dom h /\
    (forall l, l ∉ source -> after_loop source h !! l = h !! l) /\
    (forall l d, h !! l = Some d ->
       exists d',
         after_loop source h !! l = Some d' /\
         (forall key, key <> "value" -> d' !! key = d !! key) /\
         (forall from_str value,
            d !! "from" = Some from_str -> d !! "value" = Some value ->
            d' !! "value" =
              Some (Nat.iter (count_occ Nat.eq_dec source l)
                      (fun v => "<|eot_id|>" +:+ role_header from_str +:+ v)
                      value))).
Proof.
  intros HF.
  destruct (loop_any_source get_conversation source h header HF)
    as (c & Hrun & Hc).
  exists (c +:+ EOS_TOKEN). split; [|split; [|split; [|split]]].
  - unfold patched_fn, bind. rewrite Hrun. reflexivity.
  - intros Hg. now rewrite (Hc Hg).
  - apply set_eq. intros l. rewrite !elem_of_dom, after_loop_lookup.
    destruct (h !! l); cbn; split; intros [x Hx]; eauto; discriminate.
  - intros l Hl. rewrite after_loop_lookup.
    assert (Hc0 : count_occ Nat.eq_dec source l = 0%nat).
    { apply count_occ_not_In. intros Hin. apply Hl.
      now apply list_elem_of_In. }
    rewrite Hc0. destruct (h !! l); cbn; [|reflexivity].
    now rewrite turn_after_0.
  - intros l d Hl. eexists. rewrite after_loop_lookup, Hl.
    split; [reflexivity|]. split.
    + intros key Hk. now apply turn_after_other.
    + intros f v Hf Hv. exact (turn_after_value _ d f v Hf Hv).
Qed.

(** A dictionary without the key [from], or without the key [value],
    stops the call with [KeyError] for that key ([from] is read first).
    The turns listed before it have been rewritten by then and stay so;
    the dictionary itself and everything else are untouched. *)
Theorem patched_fn_missing_key (header : string) (done rest : list nat)
    (l : nat) (d : gmap string string) (get_conversation : bool) (h : Heap) :
  Forall (is_turn h) done ->
  h !! l = Some d ->
  d !! "from" = None \/ d !! "value" = None ->
  patched_fn header (done ++ l :: rest) get_conversation h =
    (Raise (KeyError (match d !! "from" with
                      | None => "from"
                      | Some _ => "value"
                      end)),
     after_loop done h) /\
  after_loop done h !! l = Some d /\
  (forall l', l' ∉ done -> after_loop done h !! l' = h !! l').
Proof.
  intros HF Hl Hmiss.
  assert (Hl1 : after_loop done h !! l = Some d).
  { rewrite after_loop_lookup, Hl. cbn. now rewrite turn_after_missing. }
  split; [|split; [exact Hl1|]].
  - destruct (loop_any_source get_conversation done h header HF)
      as (c & Hrun & _).
    unfold patched_fn. apply bind_raise.
    eapply for_in_raise; [exact Hrun|].
    unfold add_speaker, bind, dict_get. rewrite Hl1.
    destruct (d !! "from") as [f|] eqn:Hf; [|reflexivity].
    destruct Hmiss as [Hm|Hm]; [discriminate|].
    rewrite Hl1, Hm. reflexivity.
  - intros l' Hn. rewrite after_loop_lookup.
    assert (Hc0 : count_occ Nat.eq_dec done l' = 0%nat).
    { apply count_occ_not_In. intros Hin. apply Hn.
      now apply list_elem_of_In. }
    rewrite Hc0. destruct (h !! l'); cbn; [|reflexivity].
    now rewrite turn_after_0.
Qed.

(** The text for training that a converted row gives is the prompt of the
    inference notebook with the caption and the end-of-sequence token
    after it: [patched_fn], called on the two turns of a record that
    [preprocess] returned and with the system text of the notebook's
    conversation template as header, returns what [preprocess_prompt]
    returns for the notebook's system prompt and the same user prompt,
    followed by the row's caption and the token. *)
Theorem training_text_of_converted_row {Image : Type}
    (save_error : list (string * Image) -> Image -> string ->
    option (exn * list (string * Image)))
    (batch out : @Batch Image) (batch_size : Z) (user_prompt : string)
    (d d' : list (string * Image)) (i : nat) (record : pyval)
    (source : list nat) (h : Heap) :
  preprocess save_error batch batch_size user_prompt d = (Ok out, d') ->
  json out !! i = Some record ->
  NoDup source ->
  Forall2 (holds_turn h) source (record_turns record) ->
  exists caption : string,
    detailed_caption batch !! i = Some caption /\
    (forall header : string,
       (patched_fn header source true h).1 =
         Ok (header
             +:+ "<|eot_id|><|start_header_id|>user<|end_header_id|>" +:+ nl +:+ nl
             +:+ "<image>" +:+ nl +:+ user_prompt
             +:+ "<|eot_id|><|start_header_id|>assistant<|end_header_id|>" +:+ nl +:+ nl
             +:+ caption +:+ "<|eot_id|>")) /\
    (patched_fn (system default_conversation) source true h).1 =
      Ok (preprocess_prompt system_prompt user_prompt +:+ caption +:+ "<|eot_id|>").
Proof.
  unfold preprocess at 1, bind at 1, range.
  destruct (for_in _ [] _ d) as [[acc|e] d1] eqn:Hloop; [|discriminate].
  intros [= <- <-] Hr Hnd HF. cbn [json] in Hr.
  apply loop_ok in Hloop as [-> _]. cbn [drop app] in Hr.
  apply lookup_take_Some in Hr as [Hr _].
  apply lookup_zip_with_Some in Hr as (id & caption & -> & Hid & Hc).
  exists caption. split; [exact Hc|].
  change (record_turns (record_of user_prompt id caption))
    with [("human", "<image>" +:+ nl +:+ user_prompt); ("gpt", caption)] in HF.
  assert (Hrun : forall header,
    (patched_fn header source true h).1 =
      Ok (header
          +:+ "<|eot_id|><|start_header_id|>user<|end_header_id|>" +:+ nl +:+ nl
          +:+ "<image>" +:+ nl +:+ user_prompt
          +:+ "<|eot_id|><|start_header_id|>assistant<|end_header_id|>" +:+ nl +:+ nl
          +:+ caption +:+ "<|eot_id|>")).
  { intros header. unfold patched_fn, bind.
    destruct (add_speaker_loop true source _ h header Hnd HF) as (h' & -> & _).
    cbn [fst ret fmap list_fmap concat_str]. unfold signalled. cbn [fst snd].
    f_equal. rewrite !StrFacts.app_assoc. reflexivity. }
  split; [exact Hrun|].
  rewrite Hrun. f_equal. unfold preprocess_prompt.
  rewrite !StrFacts.app_assoc. reflexivity.
Qed.

Lemma three_turns_held : Forall (is_turn three_turns) [0%nat; 0%nat; 1%nat].
Proof.
  assert (H0 : is_turn three_turns 0%nat).
  { exists (<["from" := "human"]> (<["value" := "<image>" +:+ nl +:+ "Ne var?"]> ∅)).
    repeat split; eexists; reflexivity. }
  assert (H1 : is_turn three_turns 1%nat).
  { exists (<["from" := "gpt"]> (<["value" := "Bir köpek."]> ∅)).
    repeat split; eexists; reflexivity. }
  repeat constructor; assumption.
Qed.

Lemma patched_fn_rewrites_listed_turns_witness :
  exists conversation : string,
    patched_fn "" [0%nat; 0%nat; 1%nat] false three_turns =
      (Ok conversation, after_loop [0%nat; 0%nat; 1%nat] three_turns) /\
    (false = false -> conversation = "" +:+ "<|eot_id|>") /\
    dom (after_loop [0%nat; 0%nat; 1%nat] three_turns) = dom three_turns /\
    (forall l, l ∉ [0%nat; 0%nat; 1%nat] ->
       after_loop [0%nat; 0%nat; 1%nat] three_turns !! l = three_turns !! l) /\
    (forall l d, three_turns !! l = Some d ->
       exists d',
         after_loop [0%nat; 0%nat; 1%nat] three_turns !! l = Some d' /\
         (forall key, key <> "value" -> d' !! key = d !! key) /\
         (forall from_str value,
            d !! "from" = Some from_str -> d !! "value" = Some value ->
            d' !! "value" =
              Some (Nat.iter (count_occ Nat.eq_dec [0%nat; 0%nat; 1%nat] l)
                      (fun v => "<|eot_id|>" +:+ role_header from_str +:+ v)
                      value))).
Proof.
  exact (patched_fn_rewrites_listed_turns "" [0%nat; 0%nat; 1%nat] false
           three_turns three_turns_held).
Defined.

Lemma patched_fn_missing_key_witness :
  patched_fn "" ([0%nat; 1%nat] ++ [2%nat]) true three_turns =
    (Raise (KeyError "value"), after_loop [0%nat; 1%nat] three_turns).
Proof.
  refine (proj1 (patched_fn_missing_key "" [0%nat; 1%nat] [] 2
                   (<["from" := "gpt"]> ∅) true three_turns _ _ _)).
  - pose proof three_turns_held as H.
    apply Forall_cons in H as [H0 H]. apply Forall_cons in H as [_ H].
    apply Forall_cons in H as [H1 _]. repeat constructor; assumption.
  - reflexivity.
  - right. reflexivity.
Defined.

Lemma training_text_of_converted_row_witness :
  exists caption : string,
    detailed_caption last_slice !! 1%nat = Some caption /\
    (forall header : string,
       (patched_fn header [0%nat; 1%nat] true
          {[0%nat := {["from" := "human";
                       "value" := "<image>" +:+ nl +:+ "Ne var?"]};
            1%nat := {["from" := "gpt"; "value" := "İki çocuk oynuyor."]}]}).1 =
         Ok (header
             +:+ "<|eot_id|><|start_header_id|>user<|end_header_id|>" +:+ nl +:+ nl
             +:+ "<image>" +:+ nl +:+ "Ne var?"
             +:+ "<|eot_id|><|start_header_id|>assistant<|end_header_id|>" +:+ nl +:+ nl
             +:+ caption +:+ "<|eot_id|>")) /\
    (patched_fn (system default_conversation) [0%nat; 1%nat] true
       {[0%nat := {["from" := "human";
                    "value" := "<image>" +:+ nl +:+ "Ne var?"]};
         1%nat := {["from" := "gpt"; "value" := "İki çocuk oynuyor."]}]}).1 =
      Ok (preprocess_prompt system_prompt "Ne var?" +:+ caption +:+ "<|eot_id|>").
Proof.
  refine (training_text_of_converted_row writes_all last_slice _ 2 "Ne var?"
            [] _ 1 _ [0%nat; 1%nat] _ _ _ _ _).
  - reflexivity.
  - reflexivity.
  - exact two_refs_distinct.
  - repeat constructor; eexists; repeat split; reflexivity.
Defined.

End SpeakerMore.

(** ** The prompt: what it determines and what it does not *)

Module PromptMore.
Import Py Inference StrMore.


(** [preprocess_prompt] puts its arguments between the delimiters as they
    are.  Given the system prompt, the result determines the user prompt,
    and given the user prompt it determines the system prompt; but it
    does not determine the pair: a system prompt that contains the
    delimiter of the user turn gives the same prompt as the shorter
    system prompt with the rest moved into the user prompt. *)
Theorem preprocess_prompt_delimiters_kept :
  (forall s u u' : string,
     preprocess_prompt s u = preprocess_prompt s u' -> u = u') /\
  (forall s s' u : string,
     preprocess_prompt s u = preprocess_prompt s' u -> s = s') /\
  (forall a b c : string,
     preprocess_prompt
       (a +:+ "<|eot_id|><|start_header_id|>user<|end_header_id|>" +:+ nl +:+ nl
          +:+ "<image>" +:+ nl +:+ b) c =
     preprocess_prompt a
       (b +:+ "<|eot_id|><|start_header_id|>user<|end_header_id|>" +:+ nl +:+ nl
          +:+ "<image>" +:+ nl +:+ c) /\
     a +:+ "<|eot_id|><|start_header_id|>user<|end_header_id|>" +:+ nl +:+ nl
       +:+ "<image>" +:+ nl +:+ b <> a).
Proof.
  split; [|split].
  - intros s u u'. unfold preprocess_prompt. rewrite !StrFacts.app_assoc.
    intros H. apply app_inv_head_str in H.
    apply app_inv_head_str in H. apply app_inv_head_str in H.
    apply app_inv_head_str in H. apply app_inv_head_str in H.
    apply app_inv_head_str in H. apply app_inv_head_str in H.
    apply app_inv_head_str in H. apply app_inv_head_str in H.
    apply (app_inv_tail_str _ _ _ H).
  - intros s s' u. unfold preprocess_prompt. rewrite !StrFacts.app_assoc.
    intros H. apply app_inv_head_str in H.
    apply app_inv_head_str in H. apply app_inv_head_str in H.
    apply (app_inv_tail_str _ _ _ H).
  - intros a b c. split.
    + unfold preprocess_prompt. rewrite !StrFacts.app_assoc. reflexivity.
    + intros E. apply (f_equal String.length) in E.
      rewrite !StrFacts.length_app in E. cbn [String.length] in E. lia.
Qed.

End PromptMore.
